(** * GlacialBreath: the session timing state machine of [App.tsx]

    A shallow embedding of the breathing-session controller (the React
    component [App] with its state hooks, refs and browser timers) and
    the properties of its phase sequencing, counters and timer life cycle.

    Conventions of the embedding:
    - each handler (a click handler or a timer callback together with the
      state updaters it queues) runs to completion before the next one
      starts, so a handler is a function [State -> State]; the start
      handlers are [async]: what follows their [await initAudio()] runs
      when that promise resolves, taken here at the click, and never runs
      when it rejects;
    - React state ([useState]) and refs ([useRef]) are fields of one record;
      the browser's timer table, its handle counter and the sequence of
      cue calls made through [playSound] are part of that record too;
    - JavaScript numbers holding counts and millisecond clock readings
      ([Date.now()]) are [Z]; numbers holding seconds ([elapsedTime],
      [retentionTime]) are IEEE binary64 doubles, the kernel's [float], with
      the source's own operations on them ([+], [-], [/], [<=]), so [0.1]
      is the double nearest to one tenth and every sum is rounded as it is
      in the browser; timer delays and cue durations ([tempoMs / 2], [100],
      [1000]) are whole or half milliseconds, which doubles hold exactly,
      and are written as rationals [Q];
    - every handler and callback is a function of the [settings] its
      closure holds ([Section Engine]); [Session] adds the settings sheet
      and records, for each scheduled timer, the settings its callback
      holds. *)

From Stdlib Require Import ZArith QArith Qround List Bool Lia Lqa.
From Stdlib Require Import PrimFloat.
From Stdlib Require SpecFloat FloatOps.
From Stdlib Require String Ascii DecimalString.
Import ListNotations.
Open Scope Z_scope.

#[local] Set Warnings "-inexact-float".

(** * Part I: the model *)

(** ** types.ts *)

Inductive SessionPhase : Set :=
  | IDLE | PREPARE | BREATHING | RETENTION | RECOVERY | COMPLETED.

Record SessionStats : Set := mkStats {
  stat_round : Z;
  retentionTime : float
}.

Record BreathingSettings : Set := mkSettings {
  breathsPerRound : Z;
  tempoMs : Z;
  totalRounds : Z
}.

Definition DEFAULT_SETTINGS : BreathingSettings :=
  {| breathsPerRound := 30; tempoMs := 3500; totalRounds := 3 |}.

Definition SessionPhase_eqb (p q : SessionPhase) : bool :=
  match p, q with
  | IDLE, IDLE | PREPARE, PREPARE | BREATHING, BREATHING
  | RETENTION, RETENTION | RECOVERY, RECOVERY | COMPLETED, COMPLETED => true
  | _, _ => false
  end.

(** ** JavaScript numbers *)

(** The double nearest to the whole number [z] (ties to even; [z] itself
    when [|z| <= 2^53]). Clock readings are whole numbers of milliseconds
    that doubles hold exactly ([Date.now()] stays below 8.64e15), so the
    difference of two readings, taken on doubles, is the double nearest to
    their difference. *)
Definition numberOfZ (z : Z) : float :=
  FloatOps.SF2Prim
    (SpecFloat.binary_normalize FloatOps.prec FloatOps.emax z 0 false).

(** The exact value of a finite double, as a fraction. *)
Definition exactValue (x : float) : option Q :=
  match FloatOps.Prim2SF x with
  | SpecFloat.S754_zero _ => Some 0%Q
  | SpecFloat.S754_finite s m e =>
      let v := if s then Z.neg m else Z.pos m in
      Some (if 0 <=? e then inject_Z (v * 2 ^ e)
            else Qmake v (Z.to_pos (2 ^ (- e))))
  | _ => None
  end.

(** [Math.ceil] on a finite double: the least whole number not below it. *)
Definition Math_ceil (x : float) : option Z :=
  option_map Qceiling (exactValue x).

(** ** The cue sink and the timer service *)

(** The argument of [playSound]. *)
Inductive SoundType : Set := inhale | exhale | bell.

(** One call into services/audio: [playInhale d], [playExhale d] or
    [playBell ()], with [d] in milliseconds. *)
Inductive Cue : Set :=
  | PlayInhale (durationMs : Q)
  | PlayExhale (durationMs : Q)
  | PlayBell.

(** The closures handed to [setInterval] and [setTimeout]. *)
Inductive Callback : Set :=
  | BreathingCycleTick   (* the arrow function inside startBreathingCycle *)
  | BreathingStep        (* runBreathingStep, armed by startBreathingCycleSafe *)
  | RetentionTick        (* the arrow function inside startRetention *)
  | RecoveryTick         (* the arrow function inside endRetention *)
  | NextRound.           (* the arrow function given to setTimeout in finishRound *)

Record Timer : Set := mkTimer {
  handle : Z;
  repeating : bool;      (* setInterval: true, setTimeout: false *)
  delayMs : Q;
  callback : Callback
}.

(** ** Component state *)

Record State : Set := mkState {
  (* useState *)
  phase : SessionPhase;
  round : Z;
  breathCount : Z;
  elapsedTime : float;
  isInhale : bool;
  sessionStats : list SessionStats;
  (* useRef *)
  timerRef : option Z;         (* number | null *)
  lastTimeRef : Z;
  activeCycleRef : Z;
  (* environment *)
  timers : list Timer;         (* scheduled and not cancelled, oldest first *)
  nextHandle : Z;              (* the handle the next setInterval/setTimeout returns *)
  cues : list Cue              (* calls made by playSound, oldest first *)
}.

Definition initialState : State :=
  {| phase := IDLE; round := 1; breathCount := 0; elapsedTime := 0%float;
     isInhale := false; sessionStats := [];
     timerRef := None; lastTimeRef := 0; activeCycleRef := 0;
     timers := []; nextHandle := 1; cues := [] |}.

Definition setPhase (p : SessionPhase) (st : State) : State :=
  mkState p (round st) (breathCount st) (elapsedTime st) (isInhale st)
          (sessionStats st) (timerRef st) (lastTimeRef st) (activeCycleRef st)
          (timers st) (nextHandle st) (cues st).

Definition setRound (r : Z) (st : State) : State :=
  mkState (phase st) r (breathCount st) (elapsedTime st) (isInhale st)
          (sessionStats st) (timerRef st) (lastTimeRef st) (activeCycleRef st)
          (timers st) (nextHandle st) (cues st).

Definition setBreathCount (c : Z) (st : State) : State :=
  mkState (phase st) (round st) c (elapsedTime st) (isInhale st)
          (sessionStats st) (timerRef st) (lastTimeRef st) (activeCycleRef st)
          (timers st) (nextHandle st) (cues st).

Definition setElapsedTime (e : float) (st : State) : State :=
  mkState (phase st) (round st) (breathCount st) e (isInhale st)
          (sessionStats st) (timerRef st) (lastTimeRef st) (activeCycleRef st)
          (timers st) (nextHandle st) (cues st).

Definition setIsInhale (b : bool) (st : State) : State :=
  mkState (phase st) (round st) (breathCount st) (elapsedTime st) b
          (sessionStats st) (timerRef st) (lastTimeRef st) (activeCycleRef st)
          (timers st) (nextHandle st) (cues st).

Definition setSessionStats (l : list SessionStats) (st : State) : State :=
  mkState (phase st) (round st) (breathCount st) (elapsedTime st) (isInhale st)
          l (timerRef st) (lastTimeRef st) (activeCycleRef st)
          (timers st) (nextHandle st) (cues st).

Definition setTimerRef (r : option Z) (st : State) : State :=
  mkState (phase st) (round st) (breathCount st) (elapsedTime st) (isInhale st)
          (sessionStats st) r (lastTimeRef st) (activeCycleRef st)
          (timers st) (nextHandle st) (cues st).

Definition setLastTimeRef (t : Z) (st : State) : State :=
  mkState (phase st) (round st) (breathCount st) (elapsedTime st) (isInhale st)
          (sessionStats st) (timerRef st) t (activeCycleRef st)
          (timers st) (nextHandle st) (cues st).

Definition setActiveCycleRef (h : Z) (st : State) : State :=
  mkState (phase st) (round st) (breathCount st) (elapsedTime st) (isInhale st)
          (sessionStats st) (timerRef st) (lastTimeRef st) h
          (timers st) (nextHandle st) (cues st).

Definition setTimers (l : list Timer) (st : State) : State :=
  mkState (phase st) (round st) (breathCount st) (elapsedTime st) (isInhale st)
          (sessionStats st) (timerRef st) (lastTimeRef st) (activeCycleRef st)
          l (nextHandle st) (cues st).

Definition setNextHandle (h : Z) (st : State) : State :=
  mkState (phase st) (round st) (breathCount st) (elapsedTime st) (isInhale st)
          (sessionStats st) (timerRef st) (lastTimeRef st) (activeCycleRef st)
          (timers st) h (cues st).

Definition setCues (l : list Cue) (st : State) : State :=
  mkState (phase st) (round st) (breathCount st) (elapsedTime st) (isInhale st)
          (sessionStats st) (timerRef st) (lastTimeRef st) (activeCycleRef st)
          (timers st) (nextHandle st) l.

(** *** window.setInterval, window.setTimeout, clearInterval *)

(** Handles come from one counter shared by intervals and timeouts, and
    [clearInterval] removes whichever timer carries the handle; a handle
    that names no scheduled timer is ignored. *)
Definition clearInterval (h : Z) (st : State) : State :=
  setTimers (filter (fun t => negb (handle t =? h)) (timers st)) st.

Definition schedule (rep : bool) (cb : Callback) (delay : Q) (st : State)
  : Z * State :=
  let h := nextHandle st in
  (h, setNextHandle (h + 1)
        (setTimers (timers st ++ [mkTimer h rep delay cb]) st)).

Definition setInterval : Callback -> Q -> State -> Z * State := schedule true.
Definition setTimeout : Callback -> Q -> State -> Z * State := schedule false.

(** Truthiness of a number: [0] is falsy. *)
Definition truthy (h : Z) : bool := negb (h =? 0).

(** [if (timerRef.current) clearInterval(timerRef.current);] *)
Definition clearTimerRef (st : State) : State :=
  match timerRef st with
  | Some h => if truthy h then clearInterval h st else st
  | None => st
  end.

(** [if (activeCycleRef.current) clearInterval(activeCycleRef.current);] *)
Definition clearActiveCycleRef (st : State) : State :=
  if truthy (activeCycleRef st) then clearInterval (activeCycleRef st) st
  else st.

Definition findTimer (h : Z) (st : State) : option Timer :=
  find (fun t => handle t =? h) (timers st).

(** Number of repeating timers that are armed. *)
Definition activeIntervals (st : State) : nat :=
  length (filter repeating (timers st)).

(** Number of deferred one-shot callbacks that are pending. *)
Definition pendingTimeouts (st : State) : nat :=
  length (filter (fun t => negb (repeating t)) (timers st)).

(** What [await initAudio()] does: the promise of services/audio
    resolves, or it rejects ([new AudioContext()] throws where the browser
    has none, [audioCtx.resume()] can reject). *)
Inductive AudioInit : Set := Resolves | Rejects.

(** ** The logic engine of [App] *)

Section Engine.

Variable settings : BreathingSettings.

(** [playSound]: the call into the audio service; [navigator.vibrate]
    follows the same case split and is not recorded separately. *)
Definition playSound (type : SoundType) (st : State) : State :=
  let breathDuration := (inject_Z (tempoMs settings) / 2)%Q in
  let c := match type with
           | inhale => PlayInhale breathDuration
           | exhale => PlayExhale breathDuration
           | bell => PlayBell
           end in
  setCues (cues st ++ [c]) st.

(** [startRetention]; [now] is the value of [Date.now()]. *)
Definition startRetention (now : Z) (st : State) : State :=
  let st := clearTimerRef st in
  let st := setPhase RETENTION st in
  let st := setElapsedTime 0%float st in
  let st := setLastTimeRef now st in
  let st := playSound bell st in
  let (h, st) := setInterval RetentionTick 100%Q st in
  setTimerRef (Some h) st.

(** The interval callback armed by [startRetention]; [now] is the value
    of [Date.now()]. *)
Definition retentionTick (now : Z) (st : State) : State :=
  let delta := (numberOfZ (now - lastTimeRef st) / 1000)%float in
  let st := setLastTimeRef now st in
  setElapsedTime (elapsedTime st + delta)%float st.

(** The interval callback of [startBreathingCycle] (first version). *)
Definition breathingCycleTick (now : Z) (st : State) : State :=
  let nextIsInhale := negb (isInhale st) in
  let st :=
    if nextIsInhale then
      let nextCount := breathCount st + 1 in
      if nextCount >? breathsPerRound settings then
        startRetention now st
      else
        setBreathCount nextCount (playSound inhale st)
    else playSound exhale st in
  setIsInhale nextIsInhale st.

(** [startBreathingCycle] (first version). *)
Definition startBreathingCycle (st : State) : State :=
  let st := clearTimerRef st in
  let intervalDuration := (inject_Z (tempoMs settings) / 2)%Q in
  let (h, st) := setInterval BreathingCycleTick intervalDuration st in
  setTimerRef (Some h) st.

(** [startSession] (first version). The handler is [async] and begins
    with [await initAudio()], outside any [try]: when the promise rejects,
    the handler ends there and nothing below the [await] runs. *)
Definition startSession (audio : AudioInit) (st : State) : State :=
  match audio with
  | Rejects => st
  | Resolves =>
      let st := setPhase BREATHING st in
      let st := setRound 1 st in
      let st := setBreathCount 1 st in
      let st := setIsInhale true st in
      let st := setSessionStats [] st in
      let st := playSound inhale st in
      startBreathingCycle st
  end.

(** [runBreathingStep]. *)
Definition runBreathingStep (now : Z) (st : State) : State :=
  let nextIsInhale := negb (isInhale st) in
  let st :=
    if nextIsInhale then
      let nextCount := breathCount st + 1 in
      if nextCount >? breathsPerRound settings then
        startRetention now (clearActiveCycleRef st)
      else
        setBreathCount nextCount (playSound inhale st)
    else playSound exhale st in
  setIsInhale nextIsInhale st.

(** [startBreathingCycleSafe]. *)
Definition startBreathingCycleSafe (st : State) : State :=
  let st := clearActiveCycleRef st in
  let interval := (inject_Z (tempoMs settings) / 2)%Q in
  let (h, st) := setInterval BreathingStep interval st in
  let st := setActiveCycleRef h st in
  setTimerRef (Some (activeCycleRef st)) st.

(** [startSessionWrapper]: [await initAudio()] first, outside any [try],
    as in [startSession]. *)
Definition startSessionWrapper (audio : AudioInit) (st : State) : State :=
  match audio with
  | Rejects => st
  | Resolves =>
      let st := setPhase BREATHING st in
      let st := setRound 1 st in
      let st := setBreathCount 1 st in
      let st := setIsInhale true st in
      let st := setSessionStats [] st in
      let st := playSound inhale st in
      startBreathingCycleSafe st
  end.

(** [resumeBreathing]. *)
Definition resumeBreathing (st : State) : State :=
  let st := setPhase BREATHING st in
  let st := setBreathCount 1 st in
  let st := setIsInhale true st in
  let st := playSound inhale st in
  startBreathingCycleSafe st.

(** The callback [finishRound] hands to [setTimeout]. *)
Definition nextRound (st : State) : State :=
  let st := resumeBreathing st in
  setRound (round st + 1) st.

(** [finishRound]. *)
Definition finishRound (st : State) : State :=
  let st := clearTimerRef st in
  if round st >=? totalRounds settings then
    playSound bell (setPhase COMPLETED st)
  else
    snd (setTimeout NextRound 1000%Q st).

(** The interval callback armed by [endRetention]:
    [if (prev <= 0.1) { finishRound(); return 0; } return prev - 0.1;]
    on doubles. *)
Definition recoveryTick (st : State) : State :=
  let prev := elapsedTime st in
  if (prev <=? 0.1)%float then
    setElapsedTime 0%float (finishRound st)
  else
    setElapsedTime (prev - 0.1)%float st.

(** [endRetention]: [round] and [elapsedTime] are the values of the
    render the click handler belongs to. *)
Definition endRetention (st : State) : State :=
  let st := setSessionStats
              (sessionStats st ++ [mkStats (round st) (elapsedTime st)]) st in
  let st := clearTimerRef st in
  let st := setPhase RECOVERY st in
  let st := setElapsedTime 15%float st in
  let st := playSound inhale st in
  let (h, st) := setInterval RecoveryTick 100%Q st in
  setTimerRef (Some h) st.

(** [stopSession]. *)
Definition stopSession (st : State) : State :=
  let st := clearTimerRef st in
  let st := clearActiveCycleRef st in
  let st := setPhase IDLE st in
  let st := setBreathCount 0 st in
  setElapsedTime 0%float st.

(** ** Events: clicks on rendered controls and timer deliveries *)

Inductive Control : Set :=
  | StartButton          (* onClick={startSessionWrapper} *)
  | EndRetentionButton   (* onClick={endRetention}, "I NEED TO BREATHE" *)
  | StopButton           (* onClick={stopSession} *)
  | DoneButton.          (* onClick={stopSession}, in renderStats *)

(** [renderControls]. *)
Definition renderControls (p : SessionPhase) : option Control :=
  match p with
  | IDLE => Some StartButton
  | RETENTION => Some EndRetentionButton
  | COMPLETED => None
  | _ => Some StopButton
  end.

Definition Control_eqb (a b : Control) : bool :=
  match a, b with
  | StartButton, StartButton | EndRetentionButton, EndRetentionButton
  | StopButton, StopButton | DoneButton, DoneButton => true
  | _, _ => false
  end.

(** Whether control [c] is on screen in phase [p]: the bottom control
    area shows [renderControls]; [renderStats], with the Done button,
    replaces the breathing circle when the session is completed. *)
Definition rendered (p : SessionPhase) (c : Control) : bool :=
  match renderControls p with
  | Some c' => Control_eqb c c'
  | None => false
  end
  || (SessionPhase_eqb p COMPLETED && Control_eqb c DoneButton).

Definition onClick (audio : AudioInit) (c : Control) (st : State) : State :=
  match c with
  | StartButton => startSessionWrapper audio st
  | EndRetentionButton => endRetention st
  | StopButton => stopSession st
  | DoneButton => stopSession st
  end.

Definition runCallback (cb : Callback) (now : Z) (st : State) : State :=
  match cb with
  | BreathingCycleTick => breathingCycleTick now st
  | BreathingStep => runBreathingStep now st
  | RetentionTick => retentionTick now st
  | RecoveryTick => recoveryTick st
  | NextRound => nextRound st
  end.

Inductive Event : Set :=
  | Click (c : Control)   (* a click; [initAudio()], if awaited, resolves *)
  | StartRejected         (* a click on start whose [initAudio()] rejects *)
  | Fire (h : Z) (now : Z).   (* timer [h] is delivered at clock reading [now] *)

(** One event. A click on a control that is not rendered and the
    delivery of a timer that is not scheduled change nothing; a one-shot
    timer leaves the table when it is delivered. *)
Definition step (ev : Event) (st : State) : State :=
  match ev with
  | Click c => if rendered (phase st) c then onClick Resolves c st else st
  | StartRejected =>
      if rendered (phase st) StartButton then onClick Rejects StartButton st
      else st
  | Fire h now =>
      match findTimer h st with
      | Some t =>
          let st := if repeating t then st else clearInterval h st in
          runCallback (callback t) now st
      | None => st
      end
  end.

Definition run (evs : list Event) (st : State) : State :=
  fold_left (fun s ev => step ev s) evs st.

(** The states of a component whose handlers and callbacks all hold the
    same [settings]. *)
Inductive reachable : State -> Prop :=
  | reachable_init : reachable initialState
  | reachable_step : forall st ev, reachable st -> reachable (step ev st).

(** Deliver the oldest scheduled timer at clock reading [now]. *)
Definition fireNext (now : Z) (st : State) : State :=
  match timers st with
  | t :: _ => step (Fire (handle t) now) st
  | [] => st
  end.

End Engine.

(** The handle of the oldest scheduled timer. *)
Definition headHandle (st : State) : option Z :=
  match timers st with
  | t :: _ => Some (handle t)
  | [] => None
  end.

(** ** Runs of ticks *)


(** The countdown value after [k] ticks from [e]; [None] once a tick
    has found [prev <= 0.1] and finished the round. *)
Fixpoint recoveryAfter (k : nat) (e : float) : option float :=
  match k with
  | O => Some e
  | S k => if (e <=? 0.1)%float then None
           else recoveryAfter k (e - 0.1)%float
  end.

(** The ticks a countdown from 15 takes, the one that finishes the round
    included: on doubles 150 subtractions of [0.1] leave a small positive
    rest (about 3.7e-14), and only tick 151 finds [prev <= 0.1]. *)
Definition countdownTicks : nat := 151.

(** The countdown shown [k] ticks after the end of a hold: it starts at
    15 and reads 0 from the tick that finishes the round. *)
Definition countdownValue (k : nat) : float :=
  match recoveryAfter k 15 with
  | Some e => e
  | None => 0%float
  end.

(** The sum a hold accumulates: the deltas [(t - previous) / 1000] of
    the readings [ts], added to [acc] one after the other as doubles. *)
Fixpoint accumulated (previous : Z) (ts : list Z) (acc : float) : float :=
  match ts with
  | [] => acc
  | t :: ts =>
      accumulated t ts (acc + numberOfZ (t - previous) / 1000)%float
  end.

(** ** The shapes a session passes through

    The states of an undisturbed session, written out field by field:
    breathing, holding, recovering, pausing before the next round, and
    completed. [h] is the handle of the one scheduled timer and [nh] the
    next handle the browser will give out. *)

Section Shapes.

Variable settings : BreathingSettings.

Definition half : Q := (inject_Z (tempoMs settings) / 2)%Q.

Definition breathingShape (isIn : bool) (r c : Z) (e : float)
    (stats : list SessionStats) (lt h nh : Z) (cu : list Cue) : State :=
  mkState BREATHING r c e isIn stats (Some h) lt h
          [mkTimer h true half BreathingStep] nh cu.

Definition retentionShape (isIn : bool) (r c : Z) (e : float)
    (stats : list SessionStats) (lt ac h nh : Z) (cu : list Cue) : State :=
  mkState RETENTION r c e isIn stats (Some h) lt ac
          [mkTimer h true 100%Q RetentionTick] nh cu.

Definition recoveryShape (isIn : bool) (r c : Z) (e : float)
    (stats : list SessionStats) (lt ac h nh : Z) (cu : list Cue) : State :=
  mkState RECOVERY r c e isIn stats (Some h) lt ac
          [mkTimer h true 100%Q RecoveryTick] nh cu.

Definition pauseShape (isIn : bool) (r c : Z) (stats : list SessionStats)
    (lt ac : Z) (tr : option Z) (h nh : Z) (cu : list Cue) : State :=
  mkState RECOVERY r c 0%float isIn stats tr lt ac
          [mkTimer h false 1000%Q NextRound] nh cu.

Definition completedShape (isIn : bool) (r c : Z)
    (stats : list SessionStats) (lt ac : Z) (tr : option Z) (nh : Z)
    (cu : list Cue) : State :=
  mkState COMPLETED r c 0%float isIn stats tr lt ac [] nh cu.

(** Where [finishRound] leaves a recovery that has counted down. *)
Definition finishedShape (isIn : bool) (r c : Z) (stats : list SessionStats)
    (lt ac h nh : Z) (cu : list Cue) : State :=
  if r >=? totalRounds settings then
    completedShape isIn r c stats lt ac (Some h) nh (cu ++ [PlayBell])
  else
    pauseShape isIn r c stats lt ac (Some h) nh (nh + 1) cu.

(** The cues of [n] full breaths. *)
Definition breathCues (n : nat) : list Cue :=
  concat (repeat [PlayInhale half; PlayExhale half] n).

End Shapes.

(** ** Counting cues *)

Definition isInhaleCue (c : Cue) : bool :=
  match c with PlayInhale _ => true | _ => false end.
Definition isExhaleCue (c : Cue) : bool :=
  match c with PlayExhale _ => true | _ => false end.
Definition isBellCue (c : Cue) : bool :=
  match c with PlayBell => true | _ => false end.

Definition countCues (p : Cue -> bool) (l : list Cue) : nat :=
  length (filter p l).

(** The cues played after state [st0] on the way to [st]. *)
Definition cuesSince (st0 st : State) : list Cue :=
  skipn (length (cues st0)) (cues st).

(** ** The timer table of an undisturbed session *)

Definition Callback_eqb (a b : Callback) : bool :=
  match a, b with
  | BreathingCycleTick, BreathingCycleTick | BreathingStep, BreathingStep
  | RetentionTick, RetentionTick | RecoveryTick, RecoveryTick
  | NextRound, NextRound => true
  | _, _ => false
  end.

(** [timerRef.current] holds the handle of [t]. *)
Definition heldBy (t : Timer) (st : State) : bool :=
  match timerRef st with
  | Some h => h =? handle t
  | None => false
  end.

(** The timer table of an undisturbed session, phase by phase: empty
    when idle or completed; the breathing, retention or countdown interval
    alone, its handle in [timerRef], while that phase runs; and the
    one-shot of the pause alone, with the countdown at zero, between a
    finished recovery and the next round. *)
Definition settled (st : State) : bool :=
  (0 <? nextHandle st) &&
  match phase st, timers st with
  | IDLE, [] => true
  | COMPLETED, [] => true
  | BREATHING, [t] =>
      repeating t && Callback_eqb (callback t) BreathingStep
      && negb (handle t =? 0) && heldBy t st
      && (activeCycleRef st =? handle t)
  | RETENTION, [t] =>
      repeating t && Callback_eqb (callback t) RetentionTick
      && negb (handle t =? 0) && heldBy t st
  | RECOVERY, [t] =>
      if repeating t then
        Callback_eqb (callback t) RecoveryTick
        && negb (handle t =? 0) && heldBy t st
      else
        Callback_eqb (callback t) NextRound
        && (elapsedTime st =? 0)%float
  | _, _ => false
  end.

(** A stop command issued while the one-shot of the pause is pending. *)
Definition stopsDuringPause (ev : Event) (st : State) : bool :=
  match ev with
  | Click StopButton => (0 <? pendingTimeouts st)%nat
  | _ => false
  end.

(** States reached without a stop command during a pause. *)
Inductive undisturbed (settings : BreathingSettings) : State -> Prop :=
  | undisturbed_init : undisturbed settings initialState
  | undisturbed_step : forall st ev,
      undisturbed settings st ->
      stopsDuringPause ev st = false ->
      undisturbed settings (step settings ev st).

(** The event is a click on the stop control. *)
Definition isStop (ev : Event) : bool :=
  match ev with
  | Click StopButton => true
  | _ => false
  end.

(** The round has been completed: the session is over, or the one-shot
    that opens the next round is pending. *)
Definition roundFinished (st : State) : Prop :=
  activeIntervals st = 0%nat /\
  (phase st = COMPLETED \/ pendingTimeouts st = 1%nat).

(** ** Driving a whole session *)

(** The clock readings at which the timers of one round are delivered:
    the breathing ticks, the ticks of the hold (the user ends the hold
    after the last of them), the countdown ticks, and the one-shot that
    opens the next round. *)
Record RoundScript : Set := mkScript {
  breathTicks : list Z;
  holdTicks : list Z;
  recoveryTicks : list Z;
  pauseEnd : Z
}.

Section Driving.

Variable settings : BreathingSettings.

(** The oldest scheduled timer is delivered at each reading of [ts]. *)
Definition fireAll (ts : list Z) (st : State) : State :=
  fold_left (fun s t => fireNext settings t s) ts st.

(** One round driven to the end of its recovery. *)
Definition driveRound (sc : RoundScript) (st : State) : State :=
  let st := fireAll (breathTicks sc) st in
  let st := fireAll (holdTicks sc) st in
  let st := step settings (Click EndRetentionButton) st in
  fireAll (recoveryTicks sc) st.

(** Round after round, with the pause one-shot delivered in between. *)
Fixpoint driveRounds (scs : list RoundScript) (st : State) : State :=
  match scs with
  | [] => st
  | sc :: rest =>
      let st' := driveRound sc st in
      match rest with
      | [] => st'
      | _ :: _ => driveRounds rest (fireNext settings (pauseEnd sc) st')
      end
  end.

Definition driveSession (scs : list RoundScript) (st0 : State) : State :=
  driveRounds scs (step settings (Click StartButton) st0).

(** A script carries every breathing tick of a round (two per breath)
    and every countdown tick. *)
Definition scriptOk (sc : RoundScript) : bool :=
  (length (breathTicks sc) =? 2 * Z.to_nat (breathsPerRound settings))%nat
  && (length (recoveryTicks sc) =? countdownTicks)%nat.

End Driving.

(** ** Statements examined and concrete sessions *)

(** The bound on the breath counter while breathing. *)
Definition breathCount_in_bounds (settings : BreathingSettings) (st : State)
  : Prop :=
  phase st = BREATHING ->
  1 <= breathCount st <= breathsPerRound settings.

(** C4 as stated: one armed interval in each of the three running
    phases, the pause included, and none when idle or completed. *)
Definition one_interval_in_running_phases (settings : BreathingSettings)
  : Prop :=
  forall st, reachable settings st ->
    (phase st = BREATHING \/ phase st = RETENTION \/ phase st = RECOVERY ->
       activeIntervals st = 1%nat) /\
    (phase st = IDLE \/ phase st = COMPLETED -> activeIntervals st = 0%nat).

(** The settings of the worked example: four breaths, one round. *)
Definition example_settings : BreathingSettings :=
  {| breathsPerRound := 4; tempoMs := 2000; totalRounds := 1 |}.

(** The breathing phase of the worked example, from the start command to
    the tick that begins the hold. *)
Definition example_breathing : State :=
  run example_settings
      (Click StartButton ::
       map (Fire 1) [1000; 2000; 3000; 4000; 5000; 6000; 7000; 8000])
      initialState.

(** Timer [h] delivered [n] times, [dt] milliseconds apart, after [t0]. *)
Definition ticksEvery (h t0 dt : Z) (n : nat) : list Event :=
  map (fun i => Fire h (t0 + dt * Z.of_nat i)) (seq 1 n).

(** The first round of a default session: thirty breaths, a hold of two
    seconds, and the recovery countdown to the tick that finishes the
    round. *)
Definition first_round : list Event :=
  Click StartButton :: ticksEvery 1 0 1750 60
    ++ ticksEvery 2 105000 100 20
    ++ [Click EndRetentionButton]
    ++ ticksEvery 3 107000 100 countdownTicks.

(** The same round one countdown tick short of its end. *)
Definition last_countdown_tick_pending : State :=
  run DEFAULT_SETTINGS
      (Click StartButton :: ticksEvery 1 0 1750 60
         ++ ticksEvery 2 105000 100 20
         ++ [Click EndRetentionButton]
         ++ ticksEvery 3 107000 100 (countdownTicks - 1))
      initialState.

(** The recovery of that round after fifty countdown ticks. *)
Definition recovering_in_first_round : State :=
  run DEFAULT_SETTINGS
      (Click StartButton :: ticksEvery 1 0 1750 60
         ++ ticksEvery 2 105000 100 20
         ++ [Click EndRetentionButton]
         ++ ticksEvery 3 107000 100 50)
      initialState.

(** The hold of that round, after its twenty ticks. *)
Definition holding_in_first_round : State :=
  run DEFAULT_SETTINGS
      (Click StartButton :: ticksEvery 1 0 1750 60
         ++ ticksEvery 2 105000 100 20)
      initialState.

(** The state that round leaves: the pause before round two. *)
Definition pause_after_first_round : State :=
  run DEFAULT_SETTINGS first_round initialState.

(** The stop control pressed during the pause after the first round of a
    default session, before the one-shot is due. *)
Definition stopped_in_pause : State :=
  step DEFAULT_SETTINGS (Click StopButton) pause_after_first_round.


(** C8 as stated, for either outcome of [initAudio()]. *)
Definition start_always_begins_breathing (settings : BreathingSettings)
  : Prop :=
  forall (st : State) (ev : Event),
    phase st = IDLE ->
    ev = Click StartButton \/ ev = StartRejected ->
    phase (step settings ev st) = BREATHING.

(** A default session of three rounds with holds of 2, 3 and 1 seconds. *)
Definition default_scripts : list RoundScript :=
  [ mkScript (map (fun i => 1750 * Z.of_nat i) (seq 1 60))
             (map (fun i => 105000 + 100 * Z.of_nat i) (seq 1 20))
             (map (fun i => 107000 + 100 * Z.of_nat i) (seq 1 countdownTicks))
             123100;
    mkScript (map (fun i => 123100 + 1750 * Z.of_nat i) (seq 1 60))
             (map (fun i => 228100 + 100 * Z.of_nat i) (seq 1 30))
             (map (fun i => 231100 + 100 * Z.of_nat i) (seq 1 countdownTicks))
             247200;
    mkScript (map (fun i => 247200 + 1750 * Z.of_nat i) (seq 1 60))
             (map (fun i => 352200 + 100 * Z.of_nat i) (seq 1 10))
             (map (fun i => 353200 + 100 * Z.of_nat i) (seq 1 countdownTicks))
             369300 ].

(** ** The transition table

    The moves of an undisturbed session, each with what it requires of
    the state before and what it establishes in the state after. *)

Inductive transition (settings : BreathingSettings) (st st' : State) : Prop :=
  | T_start :
      phase st = IDLE ->
      phase st' = BREATHING -> round st' = 1 -> breathCount st' = 1 ->
      sessionStats st' = [] ->
      transition settings st st'
  | T_breath :
      phase st = BREATHING ->
      phase st' = BREATHING -> round st' = round st ->
      sessionStats st' = sessionStats st ->
      transition settings st st'
  | T_hold_begins :
      phase st = BREATHING ->
      breathCount st + 1 > breathsPerRound settings ->
      phase st' = RETENTION -> round st' = round st ->
      elapsedTime st' = 0%float -> sessionStats st' = sessionStats st ->
      transition settings st st'
  | T_hold :
      phase st = RETENTION ->
      phase st' = RETENTION -> round st' = round st ->
      sessionStats st' = sessionStats st ->
      transition settings st st'
  | T_hold_ends :
      phase st = RETENTION ->
      phase st' = RECOVERY -> round st' = round st ->
      elapsedTime st' = 15%float -> pendingTimeouts st' = 0%nat ->
      sessionStats st' =
        sessionStats st ++ [mkStats (round st) (elapsedTime st)] ->
      transition settings st st'
  | T_countdown :
      phase st = RECOVERY -> pendingTimeouts st = 0%nat ->
      (elapsedTime st <=? 0.1)%float = false ->
      phase st' = RECOVERY -> round st' = round st ->
      elapsedTime st' = (elapsedTime st - 0.1)%float ->
      pendingTimeouts st' = 0%nat ->
      sessionStats st' = sessionStats st ->
      transition settings st st'
  | T_round_done :
      phase st = RECOVERY -> pendingTimeouts st = 0%nat ->
      (elapsedTime st <=? 0.1)%float = true ->
      round st < totalRounds settings ->
      phase st' = RECOVERY -> round st' = round st ->
      elapsedTime st' = 0%float ->
      pendingTimeouts st' = 1%nat -> activeIntervals st' = 0%nat ->
      sessionStats st' = sessionStats st ->
      transition settings st st'
  | T_session_done :
      phase st = RECOVERY -> pendingTimeouts st = 0%nat ->
      (elapsedTime st <=? 0.1)%float = true ->
      totalRounds settings <= round st ->
      phase st' = COMPLETED -> round st' = round st ->
      elapsedTime st' = 0%float -> timers st' = [] ->
      sessionStats st' = sessionStats st ->
      transition settings st st'
  | T_next_round :
      phase st = RECOVERY -> pendingTimeouts st = 1%nat ->
      phase st' = BREATHING -> round st' = round st + 1 ->
      breathCount st' = 1 -> sessionStats st' = sessionStats st ->
      transition settings st st'
  | T_stop :
      phase st = BREATHING \/ phase st = RECOVERY \/ phase st = COMPLETED ->
      phase st' = IDLE -> round st' = round st ->
      breathCount st' = 0 -> elapsedTime st' = 0%float -> timers st' = [] ->
      sessionStats st' = sessionStats st ->
      transition settings st st'.

(** The argument of [useWakeLock]. *)
Definition keepAwake (p : SessionPhase) : bool :=
  negb (SessionPhase_eqb p IDLE) && negb (SessionPhase_eqb p COMPLETED).

(** The [progress] prop handed to [BreathingCircle]. *)
Definition progress (st : State) : float :=
  match phase st with
  | RECOVERY => (elapsedTime st / 15)%float
  | _ => 0%float
  end.

(** [strokeDashoffset] of the progress ring of [BreathingCircle]. *)
Definition strokeDashoffset (progress : float) : float :=
  (879 * (1 - progress))%float.

(** The seconds shown under the circle while recovering:
    [Math.ceil(elapsedTime)]. *)
Definition secondsShown (st : State) : option Z := Math_ceil (elapsedTime st).

(** The round counter stays within the configured rounds while a
    session runs, and below the last round while a pause is pending. *)
Definition roundInRange (settings : BreathingSettings) (st : State) : Prop :=
  match phase st with
  | BREATHING | RETENTION => 1 <= round st <= totalRounds settings
  | RECOVERY =>
      1 <= round st <= totalRounds settings /\
      (pendingTimeouts st = 1%nat -> round st < totalRounds settings)
  | _ => True
  end.

(** While recovering, [elapsedTime] is one of the values the countdown
    from 15 takes. *)
Definition onCountdown (st : State) : Prop :=
  phase st = RECOVERY ->
  exists k, (k <= countdownTicks)%nat /\ elapsedTime st = countdownValue k.

(** What the screen makes of a countdown value: the value between 0 and
    15, the progress between 0 and 1, the dash offset between 0 and 879,
    the seconds shown between 0 and 15. *)
Definition displayInRange (e : float) : bool :=
  ((0 <=? e) && (e <=? 15)
   && (0 <=? e / 15) && (e / 15 <=? 1)
   && (0 <=? strokeDashoffset (e / 15))
   && (strokeDashoffset (e / 15) <=? 879))%float
  && match Math_ceil e with
     | Some n => (0 <=? n) && (n <=? 15)
     | None => false
     end.

(** The order in which phases may follow one another. *)
Definition mayFollow (p p' : SessionPhase) : bool :=
  match p, p' with
  | IDLE, (IDLE | BREATHING) => true
  | BREATHING, (BREATHING | RETENTION | IDLE) => true
  | RETENTION, (RETENTION | RECOVERY) => true
  | RECOVERY, (RECOVERY | BREATHING | COMPLETED | IDLE) => true
  | COMPLETED, (COMPLETED | IDLE) => true
  | _, _ => false
  end.

(** ** The log of a driven session *)

(** The seconds a hold accumulates on the ticks a script prescribes,
    from the tick that begins the hold. *)
Definition holdSeconds (sc : RoundScript) : float :=
  accumulated (last (breathTicks sc) 0) (holdTicks sc) 0.

(** The cues of one round: its breaths, the bell that begins the hold,
    the inhale that begins the recovery. *)
Definition roundCues (settings : BreathingSettings) : list Cue :=
  breathCues settings (Z.to_nat (breathsPerRound settings))
    ++ [PlayBell; PlayInhale (half settings)].

(** [n] round numbers counting up from [r]. *)
Fixpoint roundsFrom (r : Z) (n : nat) : list Z :=
  match n with
  | O => []
  | S n => r :: roundsFrom (r + 1) n
  end.

(** ** The settings sheet *)

(** What the controls of [SettingsSheet] hand to [setSettings]: the
    value of the range input (min 20, max 60, step 5), and the value of
    one of the speed or rounds buttons. *)
Inductive SettingsEdit : Set :=
  | BreathsSlider (value : Z)
  | SpeedButton (speed : Z)
  | RoundsButton (r : Z).

(** The edits the sheet can produce. *)
Definition sheetOffers (e : SettingsEdit) : bool :=
  match e with
  | BreathsSlider v => (20 <=? v) && (v <=? 60) && ((v - 20) mod 5 =? 0)
  | SpeedButton s => existsb (Z.eqb s) [2500; 3500; 5000]
  | RoundsButton r => existsb (Z.eqb r) [1; 3; 5]
  end.

(** [setSettings({...settings, field: value})]. *)
Definition applyEdit (s : BreathingSettings) (e : SettingsEdit)
  : BreathingSettings :=
  match e with
  | BreathsSlider v => mkSettings v (tempoMs s) (totalRounds s)
  | SpeedButton sp => mkSettings (breathsPerRound s) sp (totalRounds s)
  | RoundsButton r => mkSettings (breathsPerRound s) (tempoMs s) r
  end.

(** The duration shown on the idle screen:
    [Math.ceil(settings.totalRounds * 3.5)] minutes. *)
Definition estimatedMinutes (s : BreathingSettings) : Z :=
  Qceiling (inject_Z (totalRounds s) * (35 # 10)).

(** Settings the sheet can lead to. *)
Definition sheetValid (s : BreathingSettings) : Prop :=
  20 <= breathsPerRound s <= 60 /\ breathsPerRound s mod 5 = 0 /\
  In (tempoMs s) [2500; 3500; 5000] /\ In (totalRounds s) [1; 3; 5].

(** ** Settings edits and the closures of scheduled callbacks

    [settings] is React state of [App]. A click handler belongs to the
    latest render and reads the settings of that render. A callback handed
    to [setInterval] or [setTimeout] is a closure: it reads, and hands on
    to the timers it arms in turn, the settings of the render that created
    the handler which armed it. *)

Record Session : Set := mkSession {
  currentSettings : BreathingSettings;   (* useState(DEFAULT_SETTINGS) *)
  showSettings : bool;                   (* useState(false) *)
  app : State;
  closures : list (Z * BreathingSettings)
    (* by timer handle: the settings the timer's callback holds *)
}.

Definition initialSession : Session :=
  {| currentSettings := DEFAULT_SETTINGS; showSettings := false;
     app := initialState; closures := [] |}.

Inductive UIEvent : Set :=
  | AppEvent (ev : Event)
  | OpenSettings      (* the settings button, rendered when phase = IDLE *)
  | CloseSettings     (* the close button and the backdrop of the sheet *)
  | EditSettings (e : SettingsEdit).

(** The settings held by the callback of timer [h]. *)
Definition closureOf (h : Z) (s : Session) : BreathingSettings :=
  match find (fun p => fst p =? h) (closures s) with
  | Some p => snd p
  | None => currentSettings s
  end.

(** The timers armed on the way from [st] to [st'] hold [cl]. *)
Definition armedWith (cl : BreathingSettings) (st st' : State)
  : list (Z * BreathingSettings) :=
  map (fun t => (handle t, cl))
      (filter (fun t => nextHandle st <=? handle t) (timers st')).

(** Event [ev] handled by a handler or callback that holds [cl]. *)
Definition handled (cl : BreathingSettings) (ev : Event) (s : Session)
  : Session :=
  let st' := step cl ev (app s) in
  mkSession (currentSettings s) (showSettings s) st'
            (closures s ++ armedWith cl (app s) st').

(** One event of the screen. The open sheet covers the controls
    ([absolute inset-0 z-50]), so they take no click while it is shown;
    timers are delivered all the same. *)
Definition sessionStep (u : UIEvent) (s : Session) : Session :=
  match u with
  | AppEvent (Fire h now) => handled (closureOf h s) (Fire h now) s
  | AppEvent ev =>
      if showSettings s then s else handled (currentSettings s) ev s
  | OpenSettings =>
      if SessionPhase_eqb (phase (app s)) IDLE
      then mkSession (currentSettings s) true (app s) (closures s)
      else s
  | CloseSettings =>
      mkSession (currentSettings s) false (app s) (closures s)
  | EditSettings e =>
      if showSettings s && sheetOffers e
      then mkSession (applyEdit (currentSettings s) e) true (app s)
                     (closures s)
      else s
  end.

Definition sessionRun (us : list UIEvent) (s : Session) : Session :=
  fold_left (fun s u => sessionStep u s) us s.

(** C9 as stated, on sessions: the bound is the one of the settings on
    screen. *)
Definition breathCount_bounded_in_every_session : Prop :=
  forall us : list UIEvent,
    let s := sessionRun us initialSession in
    phase (app s) = BREATHING ->
    1 <= breathCount (app s) <= breathsPerRound (currentSettings s).

(** A default session is stopped during the pause after its first round;
    on the idle screen the settings sheet is opened and the slider moved
    from 30 breaths to 20; then the one-shot of the pause, which the stop
    left pending, is delivered, and the interval it arms ticks 40 times. *)
Definition stop_edit_resume : list UIEvent :=
  map AppEvent first_round
    ++ [AppEvent (Click StopButton); OpenSettings;
        EditSettings (BreathsSlider 20); AppEvent (Fire 4 123100)]
    ++ map AppEvent (ticksEvery 5 123100 1750 40).

Definition resumed_after_edit : Session :=
  sessionRun stop_edit_resume initialSession.

(** ** The first version of the breathing cycle *)

(** A breathing state armed by [startBreathingCycle]: the interval runs
    the first version of the tick and only [timerRef] holds its handle. *)
Definition legacyShape (settings : BreathingSettings) (isIn : bool)
    (r c : Z) (e : float) (stats : list SessionStats) (lt ac h nh : Z)
    (cu : list Cue) : State :=
  mkState BREATHING r c e isIn stats (Some h) lt ac
          [mkTimer h true (half settings) BreathingCycleTick] nh cu.

(** The cue the label of the circle stands for while breathing. *)
Definition heardCue (settings : BreathingSettings) (st : State) : Cue :=
  if isInhale st then PlayInhale (half settings)
  else PlayExhale (half settings).

(** While breathing, the last cue played is the one the label shows. *)
Definition labelMatchesCue (settings : BreathingSettings) (st : State)
  : Prop :=
  phase st = BREATHING -> last (cues st) PlayBell = heardCue settings st.

(** ** Display helpers of [App] *)

Module Display.

Import Stdlib.Strings.String Stdlib.Strings.Ascii Stdlib.Numbers.DecimalString.

(** [Math.trunc]: rounding towards zero. *)
Definition Qtruncate (x : Q) : Z :=
  if Qle_bool 0 x then Qfloor x else Qceiling x.

(** The remainder operator [x % y] on numbers: the sign of the result
    is the sign of [x]. *)
Definition jsRemainder (x y : Q) : Q :=
  (x - y * inject_Z (Qtruncate (x / y)))%Q.

(** [toString] of a whole number. *)
Definition numberToString (z : Z) : string :=
  NilZero.string_of_int (Z.to_int z).

(** [s.padStart(n, c)] for a one-character [c]. *)
Fixpoint padding (n : nat) (c : ascii) : string :=
  match n with
  | O => EmptyString
  | S n => String c (padding n c)
  end.

Definition padStart (n : nat) (c : ascii) (s : string) : string :=
  append (padding (n - length s) c) s.

(** The two numbers [formatTime] computes. *)
Definition minutesOf (seconds : Q) : Z := Qfloor (seconds / 60).
Definition secondsOf (seconds : Q) : Z := Qfloor (jsRemainder seconds 60).

(** [formatTime]. *)
Definition formatTime (seconds : Q) : string :=
  let m := minutesOf seconds in
  let s := secondsOf seconds in
  append (numberToString m)
         (append ":" (padStart 2 "0" (numberToString s))).

(** The [text] prop handed to [BreathingCircle]. *)
Definition circleText (st : State) : string :=
  match phase st with
  | IDLE => "READY"
  | BREATHING => if isInhale st then "INHALE" else "EXHALE"
  | RETENTION => "HOLD"
  | RECOVERY => "RECOVER"
  | _ => ""
  end.

End Display.

(** * Part II: properties *)

Arguments playSound settings type st : simpl never.

(** ** Frame facts: what the timer primitives leave alone *)

Lemma clearTimerRef_frame (st : State) :
  clearTimerRef st = setTimers (timers (clearTimerRef st)) st.
Proof.
  unfold clearTimerRef.
  destruct (timerRef st) as [h|]; [destruct (truthy h)|]; destruct st; reflexivity.
Qed.

Lemma clearActiveCycleRef_frame (st : State) :
  clearActiveCycleRef st = setTimers (timers (clearActiveCycleRef st)) st.
Proof.
  unfold clearActiveCycleRef.
  destruct (truthy (activeCycleRef st)); destruct st; reflexivity.
Qed.

(** Rewrites a cancellation into an update of the [timers] field only. *)
Ltac frame_clears :=
  repeat match goal with
         | |- context [clearTimerRef ?s] =>
             lazymatch s with
             | context [clearTimerRef] => fail
             | context [clearActiveCycleRef] => fail
             | _ => rewrite (clearTimerRef_frame s);
                    generalize (timers (clearTimerRef s)); intro
             end
         | |- context [clearActiveCycleRef ?s] =>
             lazymatch s with
             | context [clearTimerRef] => fail
             | context [clearActiveCycleRef] => fail
             | _ => rewrite (clearActiveCycleRef_frame s);
                    generalize (timers (clearActiveCycleRef s)); intro
             end
         end.

(** Cancelling is idempotent: a handle that is gone is ignored. *)
Lemma clearInterval_idem (h : Z) (st : State) :
  clearInterval h (clearInterval h st) = clearInterval h st.
Proof.
  unfold clearInterval. simpl. unfold setTimers. simpl. f_equal.
  induction (timers st) as [|t l IH]; [reflexivity|].
  simpl. destruct (negb (handle t =? h)) eqn:E; simpl.
  - rewrite E. f_equal. exact IH.
  - exact IH.
Qed.

Lemma clearTimerRef_after_clearActiveCycleRef (st : State) :
  timerRef st = Some (activeCycleRef st) ->
  clearTimerRef (clearActiveCycleRef st) = clearTimerRef st.
Proof.
  intro Href. unfold clearActiveCycleRef, clearTimerRef.
  destruct (truthy (activeCycleRef st)) eqn:Ht.
  - simpl. rewrite Href, Ht. apply clearInterval_idem.
  - reflexivity.
Qed.

(** ** Runs *)

Lemma run_nil settings st : run settings [] st = st.
Proof. reflexivity. Qed.

Lemma run_cons settings ev evs st :
  run settings (ev :: evs) st = run settings evs (step settings ev st).
Proof. reflexivity. Qed.

Lemma run_app settings evs1 evs2 st :
  run settings (evs1 ++ evs2) st = run settings evs2 (run settings evs1 st).
Proof. unfold run. apply fold_left_app. Qed.

Lemma reachable_run settings evs st :
  reachable settings st -> reachable settings (run settings evs st).
Proof.
  revert st. induction evs as [|ev evs IH]; intros st H; [exact H|].
  simpl. apply IH. apply reachable_step. exact H.
Qed.

Lemma last_cons_default {A} (l : list A) : forall x d,
  last (x :: l) d = last l x.
Proof.
  induction l as [|y l IH]; intros x d; [reflexivity|].
  change (last (y :: l) d = last (y :: l) x). now rewrite !IH.
Qed.

(** ** Starting a session *)

(** From the idle screen, when [initAudio()] resolves, the start control
    yields round 1, breath count 1, inhale, phase Breathing and an empty
    stats log; it plays one inhale cue of half the tempo and arms
    [runBreathingStep] as a repeating timer with a delay of half the
    tempo, recorded in both refs. *)
Lemma start_from_idle (settings : BreathingSettings) (st : State) :
  phase st = IDLE ->
  let half := (inject_Z (tempoMs settings) / 2)%Q in
  let st' := step settings (Click StartButton) st in
  phase st' = BREATHING /\ round st' = 1 /\ breathCount st' = 1 /\
  isInhale st' = true /\ sessionStats st' = [] /\
  cues st' = cues st ++ [PlayInhale half] /\
  timers st' = timers (clearActiveCycleRef st)
                 ++ [mkTimer (nextHandle st) true half BreathingStep] /\
  timerRef st' = Some (nextHandle st) /\
  activeCycleRef st' = nextHandle st.
Proof.
  intros Hidle half st'. subst st'. unfold step. rewrite Hidle. simpl rendered.
  cbv iota. unfold onClick, startSessionWrapper, startBreathingCycleSafe.
  unfold clearActiveCycleRef, playSound. simpl.
  repeat split; destruct (truthy (activeCycleRef st)); reflexivity.
Qed.

(** A start command whose [initAudio()] rejects changes nothing. *)
Lemma step_start_rejected settings st : step settings StartRejected st = st.
Proof.
  unfold step. destruct (rendered (phase st) StartButton); reflexivity.
Qed.

(** C8. The start handler awaits [initAudio()] outside any [try]. When
    that promise rejects the handler ends at the [await]: from every
    state, the idle ones included, the click leaves the whole state as it
    was, so the phase is still Idle, no cue has been played and no timer
    is armed; the start command does not always begin a session. *)
Theorem C8_start_stalls_when_initAudio_rejects :
  (forall settings st, step settings StartRejected st = st) /\
  (let st' := step DEFAULT_SETTINGS StartRejected initialState in
   rendered (phase initialState) StartButton = true /\
   phase st' = IDLE /\ breathCount st' = 0 /\ cues st' = [] /\
   timers st' = []) /\
  ~ start_always_begins_breathing DEFAULT_SETTINGS.
Proof.
  assert (H : forall settings st, step settings StartRejected st = st).
  { intros settings st. unfold step.
    destruct (rendered (phase st) StartButton); reflexivity. }
  repeat apply conj.
  - exact H.
  - reflexivity.
  - rewrite H. reflexivity.
  - rewrite H. reflexivity.
  - rewrite H. reflexivity.
  - rewrite H. reflexivity.
  - intro Hall.
    specialize (Hall initialState StartRejected eq_refl
                  (or_intror eq_refl)).
    rewrite H in Hall. discriminate Hall.
Qed.

(** ** The two versions of the breathing tick *)

(** C10. The interval callback of [startBreathingCycle] and
    [runBreathingStep] make the same transition: same next [isInhale],
    same next [breathCount], same cues, and the same phase (so Retention
    is entered under the same condition); the two results agree on every
    field once the timer table is left aside, and on the timer table as
    well whenever [activeCycleRef] holds no handle or the one in
    [timerRef]. *)
Theorem C10_breathing_ticks_agree (settings : BreathingSettings)
    (now : Z) (st : State) :
  let a := breathingCycleTick settings now st in
  let b := runBreathingStep settings now st in
  isInhale a = isInhale b /\ breathCount a = breathCount b /\
  cues a = cues b /\ phase a = phase b /\
  (phase b = RETENTION /\ phase st <> RETENTION ->
     isInhale st = false /\ breathCount st + 1 > breathsPerRound settings) /\
  setTimers [] a = setTimers [] b /\
  (activeCycleRef st = 0 \/ timerRef st = Some (activeCycleRef st) -> a = b).
Proof.
  intros a b. subst a b. unfold breathingCycleTick, runBreathingStep.
  destruct (isInhale st) eqn:Hin; simpl negb; cbv iota.
  { repeat apply conj; try reflexivity. simpl. intros [Hr Hn]. contradiction. }
  destruct (breathCount st + 1 >? breathsPerRound settings) eqn:Hgt.
  2:{ repeat apply conj; try reflexivity. simpl. intros [Hr Hn]. contradiction. }
  assert (Hview : setTimers [] (setIsInhale true (startRetention settings now st))
                  = setTimers [] (setIsInhale true
                      (startRetention settings now (clearActiveCycleRef st)))).
  { unfold startRetention. rewrite (clearActiveCycleRef_frame st).
    generalize (timers (clearActiveCycleRef st)). intro l.
    unfold clearTimerRef, playSound. simpl.
    destruct (timerRef st) as [h|]; [destruct (truthy h)|]; reflexivity. }
  repeat apply conj.
  - exact (f_equal isInhale Hview).
  - exact (f_equal breathCount Hview).
  - exact (f_equal cues Hview).
  - exact (f_equal phase Hview).
  - intros _. apply Z.gtb_lt in Hgt. split; [reflexivity | lia].
  - exact Hview.
  - intros [H0 | Href].
    + unfold clearActiveCycleRef, truthy. rewrite H0. reflexivity.
    + f_equal. unfold startRetention.
      rewrite (clearTimerRef_after_clearActiveCycleRef st Href). reflexivity.
Qed.

(** ** The end-retention command outside Retention *)

(** C3. In every phase other than Retention the end-retention control
    is not rendered, and a click aimed at it leaves the whole state as it
    is: phase, stats log, [elapsedTime], refs, timers and cues. *)
Theorem C3_end_retention_not_offered (settings : BreathingSettings)
    (st : State) :
  phase st <> RETENTION ->
  rendered (phase st) EndRetentionButton = false /\
  step settings (Click EndRetentionButton) st = st.
Proof.
  intro Hne.
  assert (Hr : rendered (phase st) EndRetentionButton = false).
  { destruct (phase st); try reflexivity. contradiction Hne. reflexivity. }
  split; [exact Hr|]. unfold step. rewrite Hr. reflexivity.
Qed.

Lemma C3_end_retention_not_offered_witness :
  rendered (phase initialState) EndRetentionButton = false /\
  step DEFAULT_SETTINGS (Click EndRetentionButton) initialState = initialState.
Proof.
  apply (C3_end_retention_not_offered DEFAULT_SETTINGS initialState).
  simpl. discriminate.
Defined.

(** ** The breath counter *)


Lemma runBreathingStep_cases settings now st :
  let st' := runBreathingStep settings now st in
  phase st' = RETENTION \/
  (phase st' = phase st /\
   (breathCount st' = breathCount st \/
    (breathCount st' = breathCount st + 1 /\
     breathCount st + 1 <= breathsPerRound settings))).
Proof.
  unfold runBreathingStep.
  destruct (negb (isInhale st)); [|right; split; [|left]; reflexivity].
  destruct (breathCount st + 1 >? breathsPerRound settings) eqn:Hgt.
  - left. unfold startRetention. frame_clears. reflexivity.
  - right. split; [reflexivity|]. right. split; [reflexivity|].
    rewrite Z.gtb_ltb in Hgt. apply Z.ltb_ge in Hgt. exact Hgt.
Qed.

Lemma breathingCycleTick_cases settings now st :
  let st' := breathingCycleTick settings now st in
  phase st' = RETENTION \/
  (phase st' = phase st /\
   (breathCount st' = breathCount st \/
    (breathCount st' = breathCount st + 1 /\
     breathCount st + 1 <= breathsPerRound settings))).
Proof.
  unfold breathingCycleTick.
  destruct (negb (isInhale st)); [|right; split; [|left]; reflexivity].
  destruct (breathCount st + 1 >? breathsPerRound settings) eqn:Hgt.
  - left. unfold startRetention. frame_clears. reflexivity.
  - right. split; [reflexivity|]. right. split; [reflexivity|].
    rewrite Z.gtb_ltb in Hgt. apply Z.ltb_ge in Hgt. exact Hgt.
Qed.

Lemma phase_finishRound settings st :
  phase (finishRound settings st) = phase st \/
  phase (finishRound settings st) = COMPLETED.
Proof.
  unfold finishRound. frame_clears. simpl.
  destruct (round st >=? totalRounds settings); [right|left]; reflexivity.
Qed.

Lemma breathCount_finishRound settings st :
  breathCount (finishRound settings st) = breathCount st.
Proof.
  unfold finishRound. frame_clears. simpl.
  destruct (round st >=? totalRounds settings); reflexivity.
Qed.

Lemma breathCount_in_bounds_step settings ev st :
  1 <= breathsPerRound settings ->
  breathCount_in_bounds settings st ->
  breathCount_in_bounds settings (step settings ev st).
Proof.
  intros HN Hinv. unfold breathCount_in_bounds in *.
  assert (Hclick : forall c, phase (step settings (Click c) st) = BREATHING ->
            1 <= breathCount (step settings (Click c) st)
              <= breathsPerRound settings).
  { intro c. unfold step. destruct (rendered (phase st) c); [|exact Hinv].
    destruct c; unfold onClick.
    + unfold startSessionWrapper, startBreathingCycleSafe. frame_clears.
      simpl. lia.
    + unfold endRetention. frame_clears. simpl. discriminate.
    + unfold stopSession. frame_clears. simpl. discriminate.
    + unfold stopSession. frame_clears. simpl. discriminate. }
  destruct ev as [c | | h now].
  - apply Hclick.
  - rewrite step_start_rejected. exact Hinv.
  - unfold step. destruct (findTimer h st) as [t|]; [|exact Hinv].
    assert (Hinv' : forall s, s = (if repeating t then st else clearInterval h st) ->
                    phase s = BREATHING ->
                    1 <= breathCount s <= breathsPerRound settings).
    { intros s ->. destruct (repeating t); [exact Hinv|]. simpl. exact Hinv. }
    specialize (Hinv' _ eq_refl).
    generalize dependent (if repeating t then st else clearInterval h st).
    intros s Hs. destruct (callback t); unfold runCallback.
    + pose proof (breathingCycleTick_cases settings now s) as H. cbv zeta in H.
      intro Hp. destruct H as [H | [H1 H2]]; [congruence|].
      rewrite H1 in Hp. specialize (Hs Hp). lia.
    + pose proof (runBreathingStep_cases settings now s) as H. cbv zeta in H.
      intro Hp. destruct H as [H | [H1 H2]]; [congruence|].
      rewrite H1 in Hp. specialize (Hs Hp). lia.
    + exact Hs.
    + unfold recoveryTick. destruct (elapsedTime s <=? 0.1)%float.
      * simpl. rewrite breathCount_finishRound.
        destruct (phase_finishRound settings s) as [H | H]; rewrite H;
          [exact Hs | discriminate].
      * exact Hs.
    + unfold nextRound, resumeBreathing, startBreathingCycleSafe.
      frame_clears. simpl. lia.
Qed.

(** While every handler and callback holds the same settings, with at
    least one breath per round, every reachable state in phase Breathing
    has [1 <= breathCount <= breathsPerRound]; and a tick that turns to
    inhale when the next count would pass the bound leaves [breathCount]
    as it is and enters Retention. *)
Lemma breathCount_bounded_while_settings_stay
    (settings : BreathingSettings) :
  1 <= breathsPerRound settings ->
  (forall st, reachable settings st -> phase st = BREATHING ->
     1 <= breathCount st <= breathsPerRound settings) /\
  (forall now st, isInhale st = false ->
     breathCount st + 1 > breathsPerRound settings ->
     breathCount (runBreathingStep settings now st) = breathCount st /\
     phase (runBreathingStep settings now st) = RETENTION).
Proof.
  intro HN. split.
  - intros st Hreach. induction Hreach as [|st ev _ IH].
    + discriminate.
    + apply breathCount_in_bounds_step; assumption.
  - intros now st Hin Hgt. unfold runBreathingStep. rewrite Hin. simpl negb.
    cbv iota.
    assert (Hb : (breathCount st + 1 >? breathsPerRound settings) = true)
      by (apply Z.gtb_lt; lia).
    rewrite Hb.
    unfold startRetention. frame_clears. simpl. split; reflexivity.
Qed.

Lemma sessionRun_cons u us s :
  sessionRun (u :: us) s = sessionRun us (sessionStep u s).
Proof. reflexivity. Qed.

(** A session in which every scheduled callback holds the settings on
    screen, driven by app events only, is a run of [step] with those
    settings. *)
Lemma sessionRun_without_edits (evs : list Event) : forall s : Session,
  showSettings s = false ->
  Forall (fun p => snd p = currentSettings s) (closures s) ->
  app (sessionRun (map AppEvent evs) s) = run (currentSettings s) evs (app s)
  /\ currentSettings (sessionRun (map AppEvent evs) s) = currentSettings s.
Proof.
  induction evs as [|ev evs IH]; intros s Hshow Hcl; [split; reflexivity|].
  simpl map. rewrite sessionRun_cons, run_cons.
  assert (Hclo : forall h, closureOf h s = currentSettings s).
  { intro h. unfold closureOf.
    destruct (find (fun p => fst p =? h) (closures s)) as [p|] eqn:Hf;
      [|reflexivity].
    apply find_some in Hf. destruct Hf as [Hin _].
    rewrite Forall_forall in Hcl. apply Hcl. exact Hin. }
  assert (Hstep : sessionStep (AppEvent ev) s
                  = mkSession (currentSettings s) (showSettings s)
                      (step (currentSettings s) ev (app s))
                      (closures s
                       ++ armedWith (currentSettings s) (app s)
                            (step (currentSettings s) ev (app s)))).
  { unfold sessionStep, handled.
    destruct ev as [c | | h now]; rewrite ?Hshow, ?Hclo; reflexivity. }
  rewrite Hstep.
  destruct (IH (mkSession (currentSettings s) (showSettings s)
                  (step (currentSettings s) ev (app s))
                  (closures s
                   ++ armedWith (currentSettings s) (app s)
                        (step (currentSettings s) ev (app s)))))
    as [Happ Hset].
  { exact Hshow. }
  { simpl. apply Forall_app. split; [exact Hcl|].
    unfold armedWith. apply Forall_forall. intros p Hp.
    apply in_map_iff in Hp. destruct Hp as (t & <- & _). reflexivity. }
  split; [rewrite Happ | rewrite Hset]; reflexivity.
Qed.

(** C9. The bound is lost through the one-shot that [stopSession] leaves
    pending. A default session (30 breaths) is stopped during the pause
    after its first round: the phase is Idle and the one-shot of
    [finishRound] is still scheduled. The idle screen offers the settings
    sheet, whose slider sets 20 breaths per round. The one-shot then runs
    with the closures of the stopped session, and the round it opens
    counts to 30: forty ticks later the phase is Breathing and
    [breathCount] is 21, above the 20 of the settings on screen. *)
Theorem C9_breathCount_exceeds_edited_settings :
  phase stopped_in_pause = IDLE /\
  pendingTimeouts stopped_in_pause = 1%nat /\
  sheetOffers (BreathsSlider 20) = true /\
  breathsPerRound (currentSettings resumed_after_edit) = 20 /\
  phase (app resumed_after_edit) = BREATHING /\
  breathCount (app resumed_after_edit) = 21 /\
  ~ breathCount_bounded_in_every_session.
Proof.
  assert (Hp : phase (app resumed_after_edit) = BREATHING)
    by (vm_compute; reflexivity).
  assert (Hc : breathCount (app resumed_after_edit) = 21)
    by (vm_compute; reflexivity).
  assert (Hn : breathsPerRound (currentSettings resumed_after_edit) = 20)
    by (vm_compute; reflexivity).
  split; [vm_compute; reflexivity|].
  split; [vm_compute; reflexivity|].
  split; [reflexivity|].
  split; [exact Hn|]. split; [exact Hp|]. split; [exact Hc|].
  unfold breathCount_bounded_in_every_session. intro Hall.
  specialize (Hall stop_edit_resume). cbv zeta in Hall.
  unfold resumed_after_edit in Hp, Hc, Hn.
  specialize (Hall Hp). rewrite Hc, Hn in Hall. lia.
Qed.

(** ** Retention: measuring the hold *)

Lemma retentionTick_frame now st :
  retentionTick now st =
  setElapsedTime
    (elapsedTime st + numberOfZ (now - lastTimeRef st) / 1000)%float
    (setLastTimeRef now st).
Proof. reflexivity. Qed.




(** ** Breathing, tick by tick *)

Section ShapeFacts.

Variable settings : BreathingSettings.

Lemma breathing_exhale r c e stats lt h nh cu t1 :
  step settings (Fire h t1) (breathingShape settings true r c e stats lt h nh cu)
  = breathingShape settings false r c e stats lt h nh (cu ++ [PlayExhale (half settings)]).
Proof.
  unfold step, breathingShape, findTimer. simpl. rewrite Z.eqb_refl.
  reflexivity.
Qed.

Lemma breathing_inhale r c e stats lt h nh cu t2 :
  c + 1 <= breathsPerRound settings ->
  step settings (Fire h t2) (breathingShape settings false r c e stats lt h nh cu)
  = breathingShape settings true r (c + 1) e stats lt h nh (cu ++ [PlayInhale (half settings)]).
Proof.
  intro Hc.
  assert (Hb : (c + 1 >? breathsPerRound settings) = false).
  { rewrite Z.gtb_ltb. apply Z.ltb_ge. exact Hc. }
  unfold step, breathingShape, findTimer. simpl. rewrite Z.eqb_refl. simpl.
  unfold runBreathingStep. simpl. rewrite Hb. reflexivity.
Qed.

(** One full breath: the exhale tick and the next inhale tick. *)
Lemma breathing_pair r c e stats lt h nh cu t1 t2 :
  c + 1 <= breathsPerRound settings ->
  run settings [Fire h t1; Fire h t2]
      (breathingShape settings true r c e stats lt h nh cu)
  = breathingShape settings true r (c + 1) e stats lt h nh
      (cu ++ [PlayExhale (half settings); PlayInhale (half settings)]).
Proof.
  intro Hc. rewrite !run_cons, run_nil.
  rewrite breathing_exhale, breathing_inhale by exact Hc.
  rewrite <- app_assoc. reflexivity.
Qed.

(** The last breath of a round: the exhale tick, then the tick that
    would start one inhale too many and starts the hold instead. *)
Lemma breathing_last r c e stats lt h nh cu t1 t2 :
  h <> 0 ->
  c + 1 > breathsPerRound settings ->
  run settings [Fire h t1; Fire h t2]
      (breathingShape settings true r c e stats lt h nh cu)
  = retentionShape true r c 0 stats t2 h nh (nh + 1)
      (cu ++ [PlayExhale (half settings); PlayBell]).
Proof.
  intros Hh Hc.
  assert (Hb : (c + 1 >? breathsPerRound settings) = true).
  { apply Z.gtb_lt. lia. }
  assert (Ht : truthy h = true).
  { unfold truthy. apply Bool.negb_true_iff, Z.eqb_neq. exact Hh. }
  rewrite !run_cons, run_nil, breathing_exhale.
  unfold step, breathingShape, findTimer. simpl. rewrite Z.eqb_refl. simpl.
  unfold runBreathingStep. simpl. rewrite Hb.
  unfold clearActiveCycleRef. simpl. rewrite Ht.
  unfold startRetention, clearTimerRef, clearInterval. simpl.
  rewrite Ht, Z.eqb_refl. simpl. unfold playSound, retentionShape. simpl.
  rewrite <- app_assoc. reflexivity.
Qed.

Lemma breathCues_shift n :
  [PlayInhale (half settings)] ++ concat (repeat [PlayExhale (half settings); PlayInhale (half settings)] n)
    ++ [PlayExhale (half settings)]
  = breathCues settings (S n).
Proof.
  unfold breathCues. induction n as [|n IH]; [reflexivity|].
  change (S (S n)) with (1 + S n)%nat.
  rewrite repeat_app, concat_app. rewrite <- IH. reflexivity.
Qed.

(** A whole breathing phase, from the inhale with count [c] to the hold. *)
Lemma breathing_run r e stats lt h nh (n : nat) : forall c cu ts,
  h <> 0 ->
  breathsPerRound settings - c = Z.of_nat n ->
  length ts = (2 * S n)%nat ->
  run settings (map (Fire h) ts) (breathingShape settings true r c e stats lt h nh cu)
  = retentionShape true r (breathsPerRound settings) 0 stats (last ts 0) h nh
      (nh + 1)
      (cu ++ concat (repeat [PlayExhale (half settings); PlayInhale (half settings)] n)
          ++ [PlayExhale (half settings); PlayBell])
  /\ forall k, (k < length ts)%nat ->
       let s := run settings (map (Fire h) (firstn k ts))
                  (breathingShape settings true r c e stats lt h nh cu) in
       phase s = BREATHING /\ headHandle s = Some h.
Proof.
  induction n as [|n IH]; intros c cu ts Hh Hc Hlen.
  - destruct ts as [|t1 [|t2 [|t3 ts]]]; try discriminate Hlen.
    assert (c = breathsPerRound settings) by lia. subst c.
    split.
    + change (map (Fire h) [t1; t2]) with [Fire h t1; Fire h t2].
      rewrite breathing_last by (assumption || lia). reflexivity.
    + intros k Hk. simpl in Hk.
      destruct k as [|[|k]]; [split; reflexivity| |lia].
      simpl firstn. simpl map. cbv zeta. rewrite run_cons, run_nil.
      rewrite breathing_exhale. split; reflexivity.
  - destruct ts as [|t1 [|t2 ts]]; try discriminate Hlen.
    assert (Hstep : forall l,
      run settings (Fire h t1 :: Fire h t2 :: l)
          (breathingShape settings true r c e stats lt h nh cu)
      = run settings l (breathingShape settings true r (c + 1) e stats lt h nh
                          (cu ++ [PlayExhale (half settings); PlayInhale (half settings)]))).
    { intro l. rewrite <- breathing_pair with (t1 := t1) (t2 := t2) by lia.
      reflexivity. }
    destruct (IH (c + 1) (cu ++ [PlayExhale (half settings); PlayInhale (half settings)]) ts Hh)
      as [Hrun Hpre]; [lia | simpl in Hlen |- *; lia |].
    split.
    + simpl map. rewrite Hstep, Hrun. f_equal.
      * destruct ts as [|t3 ts]; [simpl in Hlen; lia|].
        rewrite !last_cons_default. reflexivity.
      * simpl. rewrite <- !app_assoc. reflexivity.
    + intros k Hk. destruct k as [|[|k]].
      * split; reflexivity.
      * simpl firstn. simpl map. cbv zeta. rewrite run_cons, run_nil.
        rewrite breathing_exhale. split; reflexivity.
      * simpl firstn. simpl map. cbv zeta. rewrite Hstep. apply Hpre.
        simpl in Hk. lia.
Qed.

End ShapeFacts.

(** ** Cues of a breathing phase *)

Lemma countCues_app p l1 l2 :
  countCues p (l1 ++ l2) = (countCues p l1 + countCues p l2)%nat.
Proof. unfold countCues. rewrite filter_app, length_app. reflexivity. Qed.

Lemma countCues_breathCues settings n :
  countCues isInhaleCue (breathCues settings n) = n /\
  countCues isExhaleCue (breathCues settings n) = n /\
  countCues isBellCue (breathCues settings n) = 0%nat.
Proof.
  unfold breathCues. induction n as [|n (Hi & He & Hb)].
  - repeat split.
  - simpl repeat. simpl concat.
    change ([PlayInhale (half settings); PlayExhale (half settings)] ++ ?l)
      with (PlayInhale (half settings) :: PlayExhale (half settings) :: l).
    unfold countCues in *. simpl. rewrite Hi, He, Hb. repeat split.
Qed.

(** The start control on an idle state with an empty timer table. *)
Lemma start_shape settings st0 :
  phase st0 = IDLE -> timers st0 = [] ->
  step settings (Click StartButton) st0
  = breathingShape settings true 1 1 (elapsedTime st0) [] (lastTimeRef st0)
      (nextHandle st0) (nextHandle st0 + 1)
      (cues st0 ++ [PlayInhale (half settings)]).
Proof.
  intros Hp Ht. destruct st0; simpl in *; subst.
  unfold step. simpl. unfold startSessionWrapper, startBreathingCycleSafe.
  unfold clearActiveCycleRef. simpl.
  destruct (truthy activeCycleRef0); reflexivity.
Qed.

(** With four breaths per round the hold begins after four inhale cues
    and four exhale cues, not three. *)
Lemma C2_exhale_count_is_not_N_minus_1 :
  phase example_breathing = RETENTION /\
  countCues isInhaleCue (cuesSince initialState example_breathing) = 4%nat /\
  countCues isExhaleCue (cuesSince initialState example_breathing) = 4%nat /\
  countCues isExhaleCue (cuesSince initialState example_breathing)
    <> Z.to_nat (breathsPerRound example_settings - 1).
Proof. vm_compute. repeat split. discriminate. Qed.

(** C2 (amended). With [N >= 1] breaths per round, a breathing phase
    started from an idle state stays in Breathing for [2N - 1] ticks and
    enters Retention on tick [2N]; from the start to that tick the cues
    are [N] times inhale-then-exhale followed by one bell: [N] inhale
    cues, [N] exhale cues, and the bell in place of inhale [N + 1]. *)
Theorem C2_breathing_phase_cues (settings : BreathingSettings)
    (st0 : State) (ts : list Z) :
  1 <= breathsPerRound settings ->
  phase st0 = IDLE -> timers st0 = [] -> nextHandle st0 <> 0 ->
  length ts = (2 * Z.to_nat (breathsPerRound settings))%nat ->
  let N := Z.to_nat (breathsPerRound settings) in
  let h := nextHandle st0 in
  let stF := run settings (Click StartButton :: map (Fire h) ts) st0 in
  phase stF = RETENTION /\
  (forall k, (k < length ts)%nat ->
     phase (run settings (Click StartButton :: map (Fire h) (firstn k ts)) st0)
     = BREATHING) /\
  cuesSince st0 stF = breathCues settings N ++ [PlayBell] /\
  countCues isInhaleCue (cuesSince st0 stF) = N /\
  countCues isExhaleCue (cuesSince st0 stF) = N /\
  countCues isBellCue (cuesSince st0 stF) = 1%nat /\
  last (cues stF) (PlayInhale 0) = PlayBell.
Proof.
  intros HN Hp Ht Hh Hlen N h stF.
  destruct (breathing_run settings 1 (elapsedTime st0) [] (lastTimeRef st0)
              h (h + 1) (Nat.pred N) 1
              (cues st0 ++ [PlayInhale (half settings)]) ts Hh)
    as [Hrun Hpre].
  { subst N. lia. }
  { rewrite Hlen. subst N. lia. }
  assert (Hcues : cues stF = cues st0 ++ breathCues settings N ++ [PlayBell]).
  { subst stF. rewrite run_cons, start_shape by assumption.
    fold h. rewrite Hrun. simpl cues.
    replace N with (S (Nat.pred N)) by (subst N; lia).
    rewrite <- breathCues_shift. rewrite <- !app_assoc. reflexivity. }
  assert (Hsince : cuesSince st0 stF = breathCues settings N ++ [PlayBell]).
  { unfold cuesSince. rewrite Hcues. rewrite skipn_app, Nat.sub_diag.
    rewrite skipn_all. reflexivity. }
  destruct (countCues_breathCues settings N) as (Hi & He & Hb).
  repeat apply conj.
  - subst stF. rewrite run_cons, start_shape by assumption.
    fold h. rewrite Hrun. reflexivity.
  - intros k Hk. rewrite run_cons, start_shape by assumption.
    apply (Hpre k Hk).
  - exact Hsince.
  - rewrite Hsince, countCues_app, Hi. apply Nat.add_0_r.
  - rewrite Hsince, countCues_app, He. apply Nat.add_0_r.
  - rewrite Hsince, countCues_app, Hb. reflexivity.
  - rewrite Hcues, !app_assoc. apply last_last.
Qed.

Lemma C2_breathing_phase_cues_witness :
  phase example_breathing = RETENTION /\
  cuesSince initialState example_breathing
    = breathCues example_settings 4 ++ [PlayBell] /\
  countCues isInhaleCue (cuesSince initialState example_breathing) = 4%nat /\
  countCues isExhaleCue (cuesSince initialState example_breathing) = 4%nat.
Proof.
  assert (HN : 1 <= breathsPerRound example_settings) by (simpl; lia).
  assert (Hh : nextHandle initialState <> 0) by discriminate.
  destruct (C2_breathing_phase_cues example_settings initialState
              [1000; 2000; 3000; 4000; 5000; 6000; 7000; 8000]
              HN eq_refl eq_refl Hh eq_refl)
    as (H1 & _ & H3 & H4 & H5 & _).
  repeat apply conj; assumption.
Defined.

(** ** Recovery: the countdown *)

Lemma recoveryAfter_S k : forall e,
  recoveryAfter (S k) e =
  match recoveryAfter k e with
  | Some e1 => if (e1 <=? 0.1)%float then None else Some (e1 - 0.1)%float
  | None => None
  end.
Proof.
  induction k as [|k IH]; intro e.
  - simpl. destruct (e <=? 0.1)%float; reflexivity.
  - change (recoveryAfter (S (S k)) e)
      with (if (e <=? 0.1)%float then None
            else recoveryAfter (S k) (e - 0.1)%float).
    rewrite IH. simpl. destruct (e <=? 0.1)%float; reflexivity.
Qed.

Lemma recoveryAfter_None_mono k : forall e,
  recoveryAfter k e = None -> recoveryAfter (S k) e = None.
Proof. intros e H. rewrite recoveryAfter_S, H. reflexivity. Qed.

(** The countdown from 15 finishes the round on tick 151 and not on
    tick 150. *)
Lemma recoveryAfter_15 :
  recoveryAfter countdownTicks 15 = None /\
  recoveryAfter (countdownTicks - 1) 15 <> None.
Proof. split; vm_compute; [reflexivity | discriminate]. Qed.

Lemma recoveryAfter_15_late k :
  (countdownTicks <= k)%nat -> recoveryAfter k 15 = None.
Proof.
  induction 1 as [|k _ IH]; [apply recoveryAfter_15|].
  apply recoveryAfter_None_mono. exact IH.
Qed.

Lemma recoveryAfter_15_early k :
  (k < countdownTicks)%nat -> recoveryAfter k 15 <> None.
Proof.
  intros Hk Hnone.
  assert (H : forall j, recoveryAfter (j + k) 15 = None).
  { induction j as [|j IH]; [exact Hnone|].
    apply recoveryAfter_None_mono. exact IH. }
  specialize (H (countdownTicks - 1 - k)%nat).
  replace (countdownTicks - 1 - k + k)%nat with (countdownTicks - 1)%nat in H
    by (unfold countdownTicks in *; lia).
  exact (proj2 recoveryAfter_15 H).
Qed.

(** Every value the countdown from 15 takes before the round is finished
    is positive, and the next tick does not raise it. *)
Lemma countdown_values_checked :
  forallb (fun k =>
             match recoveryAfter k 15 with
             | Some e1 =>
                 ((0 <=? e1) && negb (e1 =? 0)
                  && (if e1 <=? 0.1 then true else e1 - 0.1 <=? e1))%float
             | None => false
             end)
          (seq 0 countdownTicks) = true.
Proof. vm_compute. reflexivity. Qed.

Lemma recoveryAfter_15_value k e1 :
  recoveryAfter k 15 = Some e1 ->
  (k < countdownTicks)%nat /\
  (0 <=? e1)%float = true /\ (e1 =? 0)%float = false /\
  ((e1 <=? 0.1)%float = false -> (e1 - 0.1 <=? e1)%float = true).
Proof.
  intro Hk.
  assert (Hlt : (k < countdownTicks)%nat).
  { destruct (Nat.lt_ge_cases k countdownTicks) as [H | H]; [exact H|].
    rewrite (recoveryAfter_15_late k H) in Hk. discriminate Hk. }
  split; [exact Hlt|].
  pose proof countdown_values_checked as Hall.
  rewrite forallb_forall in Hall.
  specialize (Hall k (proj2 (in_seq _ _ _) (conj (Nat.le_0_l k) Hlt))).
  rewrite Hk in Hall.
  apply andb_prop in Hall. destruct Hall as [Hall Hstep].
  apply andb_prop in Hall. destruct Hall as [H0 Hne].
  repeat apply conj.
  - exact H0.
  - apply Bool.negb_true_iff. exact Hne.
  - intro Hle. rewrite Hle in Hstep. exact Hstep.
Qed.

Section RecoveryFacts.

Variable settings : BreathingSettings.

Lemma recovery_tick isIn r c e stats lt ac h nh cu t :
  (e <=? 0.1)%float = false ->
  step settings (Fire h t) (recoveryShape isIn r c e stats lt ac h nh cu)
  = recoveryShape isIn r c (e - 0.1)%float stats lt ac h nh cu.
Proof.
  intro He. unfold step, recoveryShape, findTimer. simpl.
  rewrite Z.eqb_refl. simpl. unfold recoveryTick. simpl. rewrite He.
  reflexivity.
Qed.

Lemma recovery_tick_last isIn r c e stats lt ac h nh cu t :
  h <> 0 ->
  (e <=? 0.1)%float = true ->
  step settings (Fire h t) (recoveryShape isIn r c e stats lt ac h nh cu)
  = finishedShape settings isIn r c stats lt ac h nh cu.
Proof.
  intros Hh He.
  assert (Ht : truthy h = true).
  { unfold truthy. apply Bool.negb_true_iff, Z.eqb_neq. exact Hh. }
  unfold step, recoveryShape, findTimer. simpl.
  rewrite Z.eqb_refl. simpl. unfold recoveryTick. simpl. rewrite He.
  unfold finishRound, clearTimerRef. simpl. rewrite Ht.
  unfold clearInterval. simpl. rewrite Z.eqb_refl. simpl.
  unfold finishedShape. destruct (r >=? totalRounds settings); reflexivity.
Qed.

(** Once cancelled, the countdown timer is never delivered again. *)
Lemma finished_ignores_tick isIn r c stats lt ac h nh cu t :
  h <> nh ->
  step settings (Fire h t) (finishedShape settings isIn r c stats lt ac h nh cu)
  = finishedShape settings isIn r c stats lt ac h nh cu.
Proof.
  intro Hne. unfold finishedShape.
  destruct (r >=? totalRounds settings); [reflexivity|].
  unfold step, pauseShape, findTimer. simpl.
  destruct (Z.eqb_spec nh h) as [E|E]; [congruence | reflexivity].
Qed.

Lemma finished_ignores_ticks isIn r c stats lt ac h nh cu ts :
  h <> nh ->
  run settings (map (Fire h) ts) (finishedShape settings isIn r c stats lt ac h nh cu)
  = finishedShape settings isIn r c stats lt ac h nh cu.
Proof.
  intro Hne. induction ts as [|t ts IH]; [reflexivity|].
  simpl map. rewrite run_cons, finished_ignores_tick by exact Hne. exact IH.
Qed.

(** The state after any number of countdown ticks. *)
Lemma recovery_run isIn r c stats lt ac h nh cu ts : forall e,
  h <> 0 -> h <> nh ->
  run settings (map (Fire h) ts) (recoveryShape isIn r c e stats lt ac h nh cu)
  = match recoveryAfter (length ts) e with
    | Some e1 => recoveryShape isIn r c e1 stats lt ac h nh cu
    | None => finishedShape settings isIn r c stats lt ac h nh cu
    end.
Proof.
  induction ts as [|t ts IH]; intros e Hh Hne; [reflexivity|].
  simpl map. rewrite run_cons. simpl length. simpl recoveryAfter.
  destruct (e <=? 0.1)%float eqn:He.
  - rewrite recovery_tick_last by assumption.
    apply finished_ignores_ticks. exact Hne.
  - rewrite recovery_tick by assumption. apply IH; assumption.
Qed.

Lemma elapsedTime_finishedShape isIn r c stats lt ac h nh cu :
  elapsedTime (finishedShape settings isIn r c stats lt ac h nh cu) = 0%float /\
  activeIntervals (finishedShape settings isIn r c stats lt ac h nh cu) = 0%nat.
Proof.
  unfold finishedShape. destruct (r >=? totalRounds settings); split; reflexivity.
Qed.

End RecoveryFacts.

(** ** One timer at a time *)

Lemma undisturbed_reachable settings st :
  undisturbed settings st -> reachable settings st.
Proof.
  induction 1 as [|st ev _ IH _]; [apply reachable_init|].
  apply reachable_step. exact IH.
Qed.

Ltac split_andb :=
  repeat match goal with
         | H : (_ && _) = true |- _ =>
             apply andb_prop in H; destruct H
         end.

Ltac settle_facts :=
  split_andb;
  repeat match goal with
         | H : negb (_ =? _) = true |- _ =>
             apply Bool.negb_true_iff in H
         | H : (?a =? ?b) = true |- _ =>
             apply Z.eqb_eq in H; subst
         | H : heldBy _ _ = true |- _ =>
             unfold heldBy in H; simpl in H
         | H : match ?tr with Some _ => _ | None => false end = true |- _ =>
             destruct tr; [|discriminate H]
         | H : Callback_eqb ?cb _ = true |- _ =>
             destruct cb; try discriminate H; clear H
         end.

Section SettledSteps.

Variable settings : BreathingSettings.

Lemma step_click_hidden c st :
  rendered (phase st) c = false -> step settings (Click c) st = st.
Proof. intro H. unfold step. rewrite H. reflexivity. Qed.

Lemma step_fire_unscheduled h now st :
  findTimer h st = None -> step settings (Fire h now) st = st.
Proof. intro H. unfold step. rewrite H. reflexivity. Qed.

(** [stopSession] on a state whose only timer is the one in [timerRef]. *)
Lemma stop_single ph r c e isIn stats lt ac h rep d cb nh cu :
  (h =? 0) = false ->
  stopSession (mkState ph r c e isIn stats (Some h) lt ac
                       [mkTimer h rep d cb] nh cu)
  = mkState IDLE r 0 0 isIn stats (Some h) lt ac [] nh cu.
Proof.
  intro Hh. unfold stopSession, clearTimerRef, truthy. simpl. rewrite Hh.
  simpl. unfold clearInterval. simpl. rewrite Z.eqb_refl. simpl.
  unfold clearActiveCycleRef. simpl. destruct (truthy ac); reflexivity.
Qed.

(** [stopSession] on a state with nothing scheduled. *)
Lemma stop_empty ph r c e isIn stats tr lt ac nh cu :
  stopSession (mkState ph r c e isIn stats tr lt ac [] nh cu)
  = mkState IDLE r 0 0 isIn stats tr lt ac [] nh cu.
Proof.
  unfold stopSession, clearTimerRef. simpl.
  destruct tr as [h|]; [destruct (truthy h)|]; simpl;
    unfold clearActiveCycleRef; simpl; destruct (truthy ac); reflexivity.
Qed.

Lemma settled_breathing_tick r c e isIn stats lt h d nh cu now :
  (0 <? nh) = true -> (h =? 0) = false ->
  settled (runBreathingStep settings now
             (mkState BREATHING r c e isIn stats (Some h) lt h
                      [mkTimer h true d BreathingStep] nh cu)) = true.
Proof.
  intros Hnh Hh.
  assert (Hnh1 : (0 <? nh + 1) = true).
  { apply Z.ltb_lt in Hnh. apply Z.ltb_lt. lia. }
  assert (Hnh0 : (nh =? 0) = false).
  { apply Z.ltb_lt in Hnh. apply Z.eqb_neq. lia. }
  unfold runBreathingStep. simpl.
  destruct isIn; simpl.
  - unfold settled, heldBy. simpl. rewrite Hnh, Hh, Z.eqb_refl. reflexivity.
  - destruct (c + 1 >? breathsPerRound settings).
    + unfold clearActiveCycleRef, truthy. simpl. rewrite Hh. simpl.
      unfold clearInterval. simpl. rewrite Z.eqb_refl. simpl.
      unfold startRetention, clearTimerRef, truthy. simpl. rewrite Hh. simpl.
      unfold settled, heldBy. simpl. rewrite Hnh1, Hnh0, Z.eqb_refl.
      reflexivity.
    + unfold settled, heldBy. simpl. rewrite Hnh, Hh, Z.eqb_refl. reflexivity.
Qed.

Lemma settled_end_retention r c e isIn stats lt ac h d nh cu :
  (0 <? nh) = true -> (h =? 0) = false ->
  settled (endRetention settings
             (mkState RETENTION r c e isIn stats (Some h) lt ac
                      [mkTimer h true d RetentionTick] nh cu)) = true.
Proof.
  intros Hnh Hh.
  assert (Hnh1 : (0 <? nh + 1) = true).
  { apply Z.ltb_lt in Hnh. apply Z.ltb_lt. lia. }
  assert (Hnh0 : (nh =? 0) = false).
  { apply Z.ltb_lt in Hnh. apply Z.eqb_neq. lia. }
  unfold endRetention, clearTimerRef, truthy. simpl. rewrite Hh. simpl.
  unfold clearInterval. simpl. rewrite Z.eqb_refl. simpl.
  unfold settled, heldBy. simpl. rewrite Hnh1, Hnh0, Z.eqb_refl. reflexivity.
Qed.

Lemma settled_recovery_tick r c e isIn stats lt ac h d nh cu :
  (0 <? nh) = true -> (h =? 0) = false ->
  settled (recoveryTick settings
             (mkState RECOVERY r c e isIn stats (Some h) lt ac
                      [mkTimer h true d RecoveryTick] nh cu)) = true.
Proof.
  intros Hnh Hh.
  assert (Hnh1 : (0 <? nh + 1) = true).
  { apply Z.ltb_lt in Hnh. apply Z.ltb_lt. lia. }
  unfold recoveryTick. simpl. destruct (e <=? 0.1)%float.
  - unfold finishRound, clearTimerRef, truthy. simpl. rewrite Hh. simpl.
    unfold clearInterval. simpl. rewrite Z.eqb_refl. simpl.
    destruct (r >=? totalRounds settings); simpl.
    + unfold settled. simpl. rewrite Hnh. reflexivity.
    + unfold settled. simpl. rewrite Hnh1. reflexivity.
  - unfold settled, heldBy. simpl. rewrite Hnh, Hh, Z.eqb_refl. reflexivity.
Qed.

Lemma settled_next_round ph r c e isIn stats tr lt ac nh cu :
  (0 <? nh) = true ->
  settled (nextRound settings
             (mkState ph r c e isIn stats tr lt ac [] nh cu)) = true.
Proof.
  intro Hnh.
  assert (Hnh1 : (0 <? nh + 1) = true).
  { apply Z.ltb_lt in Hnh. apply Z.ltb_lt. lia. }
  assert (Hnh0 : (nh =? 0) = false).
  { apply Z.ltb_lt in Hnh. apply Z.eqb_neq. lia. }
  unfold nextRound, resumeBreathing, startBreathingCycleSafe.
  unfold clearActiveCycleRef. simpl.
  destruct (truthy ac); simpl; unfold settled, heldBy; simpl;
    rewrite Hnh1, Hnh0, Z.eqb_refl; reflexivity.
Qed.

Lemma settled_start ph r c e isIn stats tr lt ac nh cu :
  (0 <? nh) = true ->
  settled (startSessionWrapper settings Resolves
             (mkState ph r c e isIn stats tr lt ac [] nh cu)) = true.
Proof.
  intro Hnh.
  assert (Hnh1 : (0 <? nh + 1) = true).
  { apply Z.ltb_lt in Hnh. apply Z.ltb_lt. lia. }
  assert (Hnh0 : (nh =? 0) = false).
  { apply Z.ltb_lt in Hnh. apply Z.eqb_neq. lia. }
  unfold startSessionWrapper, startBreathingCycleSafe.
  unfold clearActiveCycleRef. simpl.
  destruct (truthy ac); simpl; unfold settled, heldBy; simpl;
    rewrite Hnh1, Hnh0, Z.eqb_refl; reflexivity.
Qed.

(** Delivery of a handle to a state whose only timer is [t]. *)
Lemma step_fire_single h now st t :
  timers st = [t] ->
  step settings (Fire h now) st
  = if handle t =? h
    then runCallback settings (callback t) now
           (if repeating t then st else clearInterval h st)
    else st.
Proof.
  intro Ht. unfold step, findTimer. rewrite Ht. simpl.
  destruct (handle t =? h); reflexivity.
Qed.

Lemma settled_step ev st :
  settled st = true ->
  stopsDuringPause ev st = false ->
  settled (step settings ev st) = true.
Proof.
  intros Hs Hev. pose proof Hs as Hs0.
  destruct st as [ph r c e isIn stats tr lt ac tms nh cu].
  unfold settled in Hs. simpl in Hs.
  apply andb_prop in Hs. destruct Hs as [Hnh Hs].
  destruct ev as [ctl | | h' now];
    [ | rewrite step_start_rejected; exact Hs0 | ].
  - (* a click *)
    destruct (rendered ph ctl) eqn:Hr;
      [|rewrite step_click_hidden by exact Hr; exact Hs0].
    unfold step. simpl phase. rewrite Hr.
    destruct ph; destruct tms as [|[h rep d cb] [|t2 tms]];
      try discriminate Hs; simpl in Hs;
      destruct ctl; try discriminate Hr; unfold onClick.
    + apply settled_start. exact Hnh.
    + settle_facts. simpl in *. subst.
      rewrite stop_single by assumption.
      unfold settled. simpl. rewrite Hnh. reflexivity.
    + settle_facts. simpl in *. subst.
      apply settled_end_retention; assumption.
    + destruct rep.
      * settle_facts. simpl in *. subst. rewrite stop_single by assumption.
        unfold settled. simpl. rewrite Hnh. reflexivity.
      * discriminate Hev.
    + rewrite stop_empty. unfold settled. simpl. rewrite Hnh. reflexivity.
  - (* a timer delivery *)
    destruct tms as [|[h rep d cb] [|t2 tms]].
    + rewrite step_fire_unscheduled by reflexivity. exact Hs0.
    + rewrite (step_fire_single h' now _ (mkTimer h rep d cb)) by reflexivity.
      simpl handle. simpl callback. simpl repeating.
      destruct (Z.eqb_spec h h') as [<- | Hne]; [|exact Hs0].
      destruct ph; try discriminate Hs; simpl in Hs.
      * settle_facts. simpl in *. subst.
        apply settled_breathing_tick; assumption.
      * settle_facts. simpl in *. subst.
        exact Hs0.
      * destruct rep.
        -- settle_facts. simpl in *. subst.
           apply settled_recovery_tick; assumption.
        -- settle_facts. unfold clearInterval. simpl. rewrite Z.eqb_refl.
           simpl. apply settled_next_round. exact Hnh.
    + destruct ph; discriminate Hs.
Qed.

End SettledSteps.

Lemma settled_initial : settled initialState = true.
Proof. reflexivity. Qed.

Lemma undisturbed_settled settings st :
  undisturbed settings st -> settled st = true.
Proof.
  induction 1 as [|st ev _ IH Hev]; [apply settled_initial|].
  apply settled_step; assumption.
Qed.

(** What [settled] says about the timer table. *)
Lemma settled_timers st :
  settled st = true ->
  (activeIntervals st <= 1)%nat /\
  (forall t, In t (timers st) -> timers st = [t]) /\
  (phase st = BREATHING \/ phase st = RETENTION ->
     activeIntervals st = 1%nat /\ pendingTimeouts st = 0%nat) /\
  (phase st = RECOVERY ->
     (activeIntervals st = 1%nat /\ pendingTimeouts st = 0%nat) \/
     (activeIntervals st = 0%nat /\ pendingTimeouts st = 1%nat /\
      (elapsedTime st =? 0)%float = true)) /\
  (phase st = IDLE \/ phase st = COMPLETED -> timers st = []).
Proof.
  intro Hs.
  destruct st as [ph r c e isIn stats tr lt ac tms nh cu].
  unfold settled in Hs. simpl in Hs.
  apply andb_prop in Hs. destruct Hs as [_ Hs].
  unfold activeIntervals, pendingTimeouts. simpl.
  destruct ph; destruct tms as [|[h rep d cb] [|t2 tms]];
    try discriminate Hs; simpl in Hs;
    try (destruct rep; [|try discriminate Hs]); simpl;
    (repeat apply conj;
     [ lia
     | intros t [<- | []] || intros t []; reflexivity
     | intros [H | H]; try discriminate H; split; reflexivity
     | intro H; try discriminate H
     | intros [H | H]; try discriminate H; reflexivity ]).
  - left. split; reflexivity.
  - right. repeat split. settle_facts. assumption.
Qed.

(** During the pause after the first round, from countdown tick 151 to
    the one-shot a second later, the phase is still Recovery and no
    interval is armed: [finishRound] has cancelled the countdown. *)
Lemma C4_no_interval_during_pause :
  ~ one_interval_in_running_phases DEFAULT_SETTINGS.
Proof.
  intro H.
  destruct (H pause_after_first_round) as [Hrun _].
  { apply reachable_run, reachable_init. }
  assert (Hp : phase pause_after_first_round = RECOVERY) by (vm_compute; reflexivity).
  specialize (Hrun (or_intror (or_intror Hp))).
  vm_compute in Hrun. discriminate Hrun.
Qed.

(** C4 (amended). In every state reached without a stop command during
    a pause: at most one interval is armed and any scheduled timer is the
    only one, so arming never leaves an earlier timer behind; exactly one
    interval and no one-shot in Breathing and Retention; in Recovery
    either exactly one interval, or, during the pause after the countdown,
    no interval, the one-shot of the pause and [elapsedTime] at zero; an
    empty timer table when idle or completed. *)
Theorem C4_one_timer_at_a_time (settings : BreathingSettings) (st : State) :
  undisturbed settings st ->
  (activeIntervals st <= 1)%nat /\
  (forall t, In t (timers st) -> timers st = [t]) /\
  (phase st = BREATHING \/ phase st = RETENTION ->
     activeIntervals st = 1%nat /\ pendingTimeouts st = 0%nat) /\
  (phase st = RECOVERY ->
     (activeIntervals st = 1%nat /\ pendingTimeouts st = 0%nat) \/
     (activeIntervals st = 0%nat /\ pendingTimeouts st = 1%nat /\
      (elapsedTime st =? 0)%float = true)) /\
  (phase st = IDLE \/ phase st = COMPLETED -> timers st = []).
Proof.
  intro H. apply settled_timers. apply (undisturbed_settled settings). exact H.
Qed.

Lemma undisturbed_run settings evs : forall st,
  forallb (fun ev => negb (isStop ev)) evs = true ->
  undisturbed settings st -> undisturbed settings (run settings evs st).
Proof.
  induction evs as [|ev evs IH]; intros st Hall Hst; [exact Hst|].
  simpl in Hall. apply andb_prop in Hall. destruct Hall as [Hev Hall].
  rewrite run_cons. apply IH; [exact Hall|].
  apply undisturbed_step; [exact Hst|].
  destruct ev as [[| | |]| |]; try reflexivity. discriminate Hev.
Qed.

Lemma C4_one_timer_at_a_time_witness :
  (activeIntervals pause_after_first_round <= 1)%nat /\
  (forall t, In t (timers pause_after_first_round) ->
     timers pause_after_first_round = [t]) /\
  (phase pause_after_first_round = BREATHING \/
   phase pause_after_first_round = RETENTION ->
     activeIntervals pause_after_first_round = 1%nat /\
     pendingTimeouts pause_after_first_round = 0%nat) /\
  (phase pause_after_first_round = RECOVERY ->
     (activeIntervals pause_after_first_round = 1%nat /\
      pendingTimeouts pause_after_first_round = 0%nat) \/
     (activeIntervals pause_after_first_round = 0%nat /\
      pendingTimeouts pause_after_first_round = 1%nat /\
      (elapsedTime pause_after_first_round =? 0)%float = true)) /\
  (phase pause_after_first_round = IDLE \/
   phase pause_after_first_round = COMPLETED ->
     timers pause_after_first_round = []).
Proof.
  apply (C4_one_timer_at_a_time DEFAULT_SETTINGS).
  apply undisturbed_run; [vm_compute; reflexivity | apply undisturbed_init].
Defined.

(** ** The recovery countdown, from the end of a hold *)

Lemma end_retention_shape settings isIn r c e stats lt ac h d nh cu :
  h <> 0 ->
  step settings (Click EndRetentionButton)
    (mkState RETENTION r c e isIn stats (Some h) lt ac
             [mkTimer h true d RetentionTick] nh cu)
  = recoveryShape isIn r c 15 (stats ++ [mkStats r e]) lt ac nh (nh + 1)
      (cu ++ [PlayInhale (half settings)]).
Proof.
  intro Hh.
  assert (Ht : truthy h = true).
  { unfold truthy. apply Bool.negb_true_iff, Z.eqb_neq. exact Hh. }
  unfold step. simpl. unfold endRetention, clearTimerRef. simpl. rewrite Ht.
  unfold clearInterval. simpl. rewrite Z.eqb_refl. reflexivity.
Qed.

(** A settled state in Retention, field by field. *)
Lemma settled_retention_shape st :
  settled st = true -> phase st = RETENTION ->
  exists h d,
    h <> 0 /\ 0 < nextHandle st /\
    st = mkState RETENTION (round st) (breathCount st) (elapsedTime st)
           (isInhale st) (sessionStats st) (Some h) (lastTimeRef st)
           (activeCycleRef st) [mkTimer h true d RetentionTick]
           (nextHandle st) (cues st).
Proof.
  intros Hs Hp.
  destruct st as [ph r c e isIn stats tr lt ac tms nh cu].
  simpl in Hp. subst ph. unfold settled in Hs. simpl in Hs.
  apply andb_prop in Hs. destruct Hs as [Hnh Hs].
  destruct tms as [|[h rep d cb] [|t2 tms]]; try discriminate Hs.
  simpl in Hs. settle_facts. simpl in *. subst.
  exists h, d. repeat split.
  - apply Z.eqb_neq. assumption.
  - apply Z.ltb_lt. exact Hnh.
Qed.

(** C6. After the end-retention command the countdown starts at 15 in
    phase Recovery. Across the ticks of the countdown timer [elapsedTime]
    never increases and never goes below zero; it is zero exactly in the
    states where the round has been completed (countdown cancelled, and
    either the session completed or the next round's one-shot pending).
    On doubles this happens on tick 151 and not before: tick 150 leaves a
    positive rest below [0.1]. *)
Theorem C6_recovery_countdown (settings : BreathingSettings)
    (st : State) (ts : list Z) (t : Z) :
  settled st = true -> phase st = RETENTION ->
  let rec0 := step settings (Click EndRetentionButton) st in
  let h := nextHandle st in
  let s := run settings (map (Fire h) ts) rec0 in
  let s' := step settings (Fire h t) s in
  elapsedTime rec0 = 15%float /\ phase rec0 = RECOVERY /\
  (0 <=? elapsedTime s)%float = true /\
  (elapsedTime s' <=? elapsedTime s)%float = true /\
  ((elapsedTime s =? 0)%float = true <-> roundFinished s) /\
  ((length ts < countdownTicks)%nat ->
     phase s = RECOVERY /\ activeIntervals s = 1%nat) /\
  ((countdownTicks <= length ts)%nat -> roundFinished s).
Proof.
  intros Hs Hp rec0 h s s'.
  destruct (settled_retention_shape st Hs Hp) as (h0 & d & Hh0 & Hnh & Hst).
  assert (Hrec0 : rec0 = recoveryShape (isInhale st) (round st) (breathCount st)
                    15 (sessionStats st ++ [mkStats (round st) (elapsedTime st)])
                    (lastTimeRef st) (activeCycleRef st) h (h + 1)
                    (cues st ++ [PlayInhale (half settings)])).
  { subst rec0 h. rewrite Hst at 1. apply end_retention_shape. exact Hh0. }
  assert (Hh : h <> 0) by (subst h; lia).
  assert (Hne : h <> h + 1) by lia.
  assert (Hrun : forall l, run settings (map (Fire h) l) rec0 =
            match recoveryAfter (length l) 15 with
            | Some e1 => recoveryShape (isInhale st) (round st) (breathCount st)
                    e1 (sessionStats st ++ [mkStats (round st) (elapsedTime st)])
                    (lastTimeRef st) (activeCycleRef st) h (h + 1)
                    (cues st ++ [PlayInhale (half settings)])
            | None => finishedShape settings (isInhale st) (round st)
                    (breathCount st)
                    (sessionStats st ++ [mkStats (round st) (elapsedTime st)])
                    (lastTimeRef st) (activeCycleRef st) h (h + 1)
                    (cues st ++ [PlayInhale (half settings)])
            end).
  { intro l. rewrite Hrec0. apply recovery_run; assumption. }
  assert (Hs' : s' = run settings (map (Fire h) (ts ++ [t])) rec0).
  { subst s' s. rewrite map_app, run_app. reflexivity. }
  assert (Hfin : forall isIn r c stats lt ac a b cu,
            roundFinished (finishedShape settings isIn r c stats lt ac a b cu)).
  { intros. unfold roundFinished, finishedShape.
    destruct (r >=? totalRounds settings); split; try reflexivity;
      [left | right]; reflexivity. }
  rewrite Hs'. subst s. rewrite !Hrun.
  rewrite length_app. simpl length. rewrite Nat.add_1_r, recoveryAfter_S.
  split; [rewrite Hrec0; reflexivity|].
  split; [rewrite Hrec0; reflexivity|].
  destruct (recoveryAfter (length ts) 15) as [e1|] eqn:Hk.
  - destruct (recoveryAfter_15_value (length ts) e1 Hk)
      as (Hlt & H0 & Hne0 & Hdown).
    repeat apply conj.
    + exact H0.
    + destruct (e1 <=? 0.1)%float eqn:Hle.
      * destruct (elapsedTime_finishedShape settings (isInhale st) (round st)
                    (breathCount st)
                    (sessionStats st ++ [mkStats (round st) (elapsedTime st)])
                    (lastTimeRef st) (activeCycleRef st) h (h + 1)
                    (cues st ++ [PlayInhale (half settings)])) as [E _].
        rewrite E. exact H0.
      * apply Hdown. reflexivity.
    + simpl elapsedTime. intro Hz. rewrite Hne0 in Hz. discriminate Hz.
    + intros [Hact _]. discriminate Hact.
    + intros _. split; reflexivity.
    + intro Hlate. exfalso. lia.
  - destruct (elapsedTime_finishedShape settings (isInhale st) (round st)
                (breathCount st)
                (sessionStats st ++ [mkStats (round st) (elapsedTime st)])
                (lastTimeRef st) (activeCycleRef st) h (h + 1)
                (cues st ++ [PlayInhale (half settings)])) as [E _].
    rewrite E. repeat apply conj.
    + reflexivity.
    + reflexivity.
    + intros _. apply Hfin.
    + intros _. reflexivity.
    + intro Hearly. exfalso.
      exact (recoveryAfter_15_early (length ts) Hearly Hk).
    + intros _. apply Hfin.
Qed.

Lemma C6_recovery_countdown_witness :
  let st := holding_in_first_round in
  let rec0 := step DEFAULT_SETTINGS (Click EndRetentionButton) st in
  let h := nextHandle st in
  let ts := [107100; 107200] in
  let s := run DEFAULT_SETTINGS (map (Fire h) ts) rec0 in
  let s' := step DEFAULT_SETTINGS (Fire h 107300) s in
  elapsedTime rec0 = 15%float /\ phase rec0 = RECOVERY /\
  (0 <=? elapsedTime s)%float = true /\
  (elapsedTime s' <=? elapsedTime s)%float = true /\
  ((elapsedTime s =? 0)%float = true <-> roundFinished s) /\
  ((length ts < countdownTicks)%nat ->
     phase s = RECOVERY /\ activeIntervals s = 1%nat) /\
  ((countdownTicks <= length ts)%nat -> roundFinished s).
Proof.
  assert (Hs : settled holding_in_first_round = true)
    by (vm_compute; reflexivity).
  assert (Hp : phase holding_in_first_round = RETENTION)
    by (vm_compute; reflexivity).
  exact (C6_recovery_countdown DEFAULT_SETTINGS holding_in_first_round
           [107100; 107200] 107300 Hs Hp).
Defined.

(** ** A whole session *)

Section DrivingFacts.

Variable settings : BreathingSettings.

Lemma fireAll_nil st : fireAll settings [] st = st.
Proof. reflexivity. Qed.

Lemma fireAll_cons t ts st :
  fireAll settings (t :: ts) st = fireAll settings ts (fireNext settings t st).
Proof. reflexivity. Qed.

Lemma fireNext_head t st h :
  headHandle st = Some h -> fireNext settings t st = step settings (Fire h t) st.
Proof.
  unfold headHandle, fireNext. destruct (timers st) as [|x l]; [discriminate|].
  intro H. injection H as <-. reflexivity.
Qed.

(** While the same timer stays the oldest, [fireAll] delivers that one. *)
Lemma fireAll_as_run h ts : forall st,
  (forall k, (k < length ts)%nat ->
     headHandle (run settings (map (Fire h) (firstn k ts)) st) = Some h) ->
  fireAll settings ts st = run settings (map (Fire h) ts) st.
Proof.
  induction ts as [|t ts IH]; intros st Hpre; [reflexivity|].
  rewrite fireAll_cons. simpl map. rewrite run_cons.
  rewrite (fireNext_head t st h) by (apply (Hpre 0%nat); simpl; lia).
  apply IH. intros k Hk. apply (Hpre (S k)). simpl. lia.
Qed.

Lemma hold_tick isIn r c e stats lt ac h nh cu t :
  fireNext settings t (retentionShape isIn r c e stats lt ac h nh cu)
  = retentionShape isIn r c (e + numberOfZ (t - lt) / 1000)%float stats t
      ac h nh cu.
Proof.
  unfold fireNext, retentionShape, step, findTimer. simpl.
  rewrite Z.eqb_refl. reflexivity.
Qed.

Lemma hold_run isIn r c stats ac h nh cu ts : forall e lt,
  exists e' lt',
    fireAll settings ts (retentionShape isIn r c e stats lt ac h nh cu)
    = retentionShape isIn r c e' stats lt' ac h nh cu.
Proof.
  induction ts as [|t ts IH]; intros e lt.
  - exists e, lt. reflexivity.
  - rewrite fireAll_cons, hold_tick. apply IH.
Qed.

Lemma recovery_fireAll isIn r c stats lt ac h nh cu ts :
  h <> 0 -> h <> nh -> length ts = countdownTicks ->
  fireAll settings ts (recoveryShape isIn r c 15 stats lt ac h nh cu)
  = finishedShape settings isIn r c stats lt ac h nh cu.
Proof.
  intros Hh Hne Hlen. rewrite (fireAll_as_run h).
  - rewrite recovery_run by assumption. rewrite Hlen.
    rewrite (proj1 recoveryAfter_15). reflexivity.
  - intros k Hk. rewrite recovery_run by assumption.
    rewrite length_firstn, Nat.min_l by lia.
    destruct (recoveryAfter k 15) eqn:E; [reflexivity|].
    exfalso. apply (recoveryAfter_15_early k); [lia | exact E].
Qed.

Lemma breathing_fireAll r e stats lt h nh cu ts :
  h <> 0 -> 1 <= breathsPerRound settings ->
  length ts = (2 * Z.to_nat (breathsPerRound settings))%nat ->
  exists cu',
    fireAll settings ts (breathingShape settings true r 1 e stats lt h nh cu)
    = retentionShape true r (breathsPerRound settings) 0 stats (last ts 0)
        h nh (nh + 1) cu'.
Proof.
  intros Hh HN Hlen.
  destruct (breathing_run settings r e stats lt h nh
              (Nat.pred (Z.to_nat (breathsPerRound settings))) 1 cu ts Hh)
    as [Hrun Hpre]; [lia | lia |].
  eexists. rewrite (fireAll_as_run h).
  - exact Hrun.
  - intros k Hk. apply (Hpre k Hk).
Qed.

(** One round, from its first inhale to the end of its recovery. *)
Lemma round_shape r e stats lt h nh cu sc :
  h <> 0 -> 0 < nh -> 1 <= breathsPerRound settings ->
  scriptOk settings sc = true ->
  exists e' lt' cu',
    driveRound settings sc (breathingShape settings true r 1 e stats lt h nh cu)
    = finishedShape settings true r (breathsPerRound settings)
        (stats ++ [mkStats r e']) lt' h (nh + 1) (nh + 2) cu'.
Proof.
  intros Hh Hnh HN Hok. unfold scriptOk in Hok.
  apply andb_prop in Hok. destruct Hok as [Hb Hr].
  apply Nat.eqb_eq in Hb. apply Nat.eqb_eq in Hr.
  unfold driveRound.
  destruct (breathing_fireAll r e stats lt h nh cu (breathTicks sc) Hh HN Hb)
    as [cu1 ->].
  destruct (hold_run true r (breathsPerRound settings) stats h nh (nh + 1) cu1
              (holdTicks sc) 0%float (last (breathTicks sc) 0))
    as (e' & lt' & ->).
  unfold retentionShape. rewrite end_retention_shape by lia.
  exists e', lt'. eexists.
  rewrite recovery_fireAll by (assumption || lia).
  replace (nh + 1 + 1) with (nh + 2) by lia. reflexivity.
Qed.

(** The one-shot of the pause opens the next round. *)
Lemma pause_to_next_round isIn r c stats lt ac tr h nh cu t :
  fireNext settings t (pauseShape isIn r c stats lt ac tr h nh cu)
  = breathingShape settings true (r + 1) 1 0 stats lt nh (nh + 1)
      (cu ++ [PlayInhale (half settings)]).
Proof.
  unfold fireNext, pauseShape, step, findTimer. simpl. rewrite Z.eqb_refl.
  simpl. unfold clearInterval. simpl. rewrite Z.eqb_refl. simpl.
  unfold nextRound, resumeBreathing, startBreathingCycleSafe.
  unfold clearActiveCycleRef. simpl.
  destruct (truthy ac); reflexivity.
Qed.

Lemma driveRounds_last sc st :
  driveRounds settings [sc] st = driveRound settings sc st.
Proof. reflexivity. Qed.

Lemma driveRounds_more sc sc2 rest st :
  driveRounds settings (sc :: sc2 :: rest) st
  = driveRounds settings (sc2 :: rest)
      (fireNext settings (pauseEnd sc) (driveRound settings sc st)).
Proof. reflexivity. Qed.

(** The rounds from round [r] to the last one. *)
Lemma rounds_shape (scs : list RoundScript) :
  forall r e stats lt h nh cu,
  1 <= breathsPerRound settings ->
  h <> 0 -> 0 < nh -> scs <> [] -> r <= totalRounds settings ->
  Z.of_nat (length scs) = totalRounds settings - r + 1 ->
  forallb (scriptOk settings) scs = true ->
  exists stats' lt' ac tr nh' cu',
    driveRounds settings scs (breathingShape settings true r 1 e stats lt h nh cu)
    = completedShape true (totalRounds settings) (breathsPerRound settings)
        (stats ++ stats') lt' ac tr nh' (cu' ++ [PlayBell])
    /\ length stats' = length scs.
Proof.
  induction scs as [|sc rest IH]; intros r e stats lt h nh cu HN Hh Hnh Hne Hr Hlen Hok;
    [contradiction Hne; reflexivity|].
  simpl in Hok. apply andb_prop in Hok. destruct Hok as [Hsc Hrest].
  destruct (round_shape r e stats lt h nh cu sc Hh Hnh HN Hsc)
    as (e' & lt' & cu' & Hround).
  destruct rest as [|sc2 rest].
  - rewrite driveRounds_last, Hround. unfold finishedShape.
    simpl in Hlen. assert (r = totalRounds settings) by lia. subst r.
    rewrite (proj2 (Z.geb_le _ _)) by lia.
    exists [mkStats (totalRounds settings) e'], lt', h, (Some (nh + 1)),
           (nh + 2), cu'.
    split; reflexivity.
  - rewrite driveRounds_more, Hround. unfold finishedShape.
    assert (Hlt : r < totalRounds settings).
    { simpl length in Hlen. lia. }
    assert (Hge : (r >=? totalRounds settings) = false).
    { rewrite Z.geb_leb. apply Z.leb_gt. exact Hlt. }
    rewrite Hge, pause_to_next_round.
    destruct (IH (r + 1) 0%float (stats ++ [mkStats r e']) lt'
                (nh + 2 + 1) (nh + 2 + 1 + 1)
                (cu' ++ [PlayInhale (half settings)]))
      as (stats' & lt2 & ac & tr & nh' & cu2 & Hrun & Hl);
      try assumption; try lia; try discriminate.
    { simpl length in Hlen |- *. lia. }
    exists (mkStats r e' :: stats'), lt2, ac, tr, nh', cu2.
    split.
    + rewrite Hrun. rewrite <- app_assoc. reflexivity.
    + simpl. rewrite Hl. reflexivity.
Qed.

End DrivingFacts.

(** C7. With at least one breath per round and at least one round, a
    session started from a settled idle state and driven through
    [totalRounds] rounds (every breathing tick, a hold of any length ended
    by the user, every countdown tick, all 151 of them, and the pause
    one-shot between rounds) ends in phase Completed with the bell as its
    last cue, an empty timer table, and exactly [totalRounds] entries in
    the stats log. *)
Theorem C7_session_completes (settings : BreathingSettings)
    (st0 : State) (scs : list RoundScript) :
  1 <= breathsPerRound settings ->
  1 <= totalRounds settings ->
  settled st0 = true -> phase st0 = IDLE ->
  length scs = Z.to_nat (totalRounds settings) ->
  forallb (scriptOk settings) scs = true ->
  let stF := driveSession settings scs st0 in
  phase stF = COMPLETED /\
  last (cues stF) (PlayInhale 0) = PlayBell /\
  length (sessionStats stF) = Z.to_nat (totalRounds settings) /\
  round stF = totalRounds settings /\
  timers stF = [].
Proof.
  intros HN HR Hs Hp Hlen Hok stF.
  destruct (settled_timers st0 Hs) as (_ & _ & _ & _ & Hidle).
  assert (Ht : timers st0 = []) by (apply Hidle; left; exact Hp).
  assert (Hnh : 0 < nextHandle st0).
  { unfold settled in Hs. apply andb_prop in Hs. destruct Hs as [Hs _].
    apply Z.ltb_lt. exact Hs. }
  subst stF. unfold driveSession. rewrite start_shape by assumption.
  destruct (rounds_shape settings scs 1 (elapsedTime st0) [] (lastTimeRef st0)
              (nextHandle st0) (nextHandle st0 + 1)
              (cues st0 ++ [PlayInhale (half settings)]))
    as (stats' & lt' & ac & tr & nh' & cu' & Hrun & Hl);
    try assumption; try lia.
  { intro E. rewrite E in Hlen. simpl in Hlen. lia. }
  rewrite Hrun. simpl. repeat apply conj; try reflexivity.
  - apply last_last.
  - rewrite Hl. exact Hlen.
Qed.

Lemma C7_session_completes_witness :
  let stF := driveSession DEFAULT_SETTINGS default_scripts initialState in
  phase stF = COMPLETED /\
  last (cues stF) (PlayInhale 0) = PlayBell /\
  length (sessionStats stF) = Z.to_nat (totalRounds DEFAULT_SETTINGS) /\
  round stF = totalRounds DEFAULT_SETTINGS /\
  timers stF = [].
Proof.
  assert (HN : 1 <= breathsPerRound DEFAULT_SETTINGS) by (simpl; lia).
  assert (HR : 1 <= totalRounds DEFAULT_SETTINGS) by (simpl; lia).
  assert (Hs : settled initialState = true) by reflexivity.
  assert (Hp : phase initialState = IDLE) by reflexivity.
  assert (Hl : length default_scripts
               = Z.to_nat (totalRounds DEFAULT_SETTINGS)) by reflexivity.
  assert (Hok : forallb (scriptOk DEFAULT_SETTINGS) default_scripts = true)
    by (vm_compute; reflexivity).
  exact (C7_session_completes DEFAULT_SETTINGS initialState default_scripts
           HN HR Hs Hp Hl Hok).
Defined.

(** ** Stopping *)

(** X1 (stop). Outside a pause, the stop handler leaves an idle state
    with an empty timer table, and no timer delivery changes that state
    afterwards. *)
Lemma stopSession_quiet (settings : BreathingSettings) (st : State)
    (fs : list (Z * Z)) :
  settled st = true -> pendingTimeouts st = 0%nat ->
  phase (stopSession st) = IDLE /\ timers (stopSession st) = [] /\
  run settings (map (fun p => Fire (fst p) (snd p)) fs) (stopSession st)
  = stopSession st.
Proof.
  intros Hs Hpend.
  assert (Hi : phase (stopSession st) = IDLE).
  { unfold stopSession. frame_clears. reflexivity. }
  assert (Ht : timers (stopSession st) = []).
  { destruct st as [ph r c e isIn stats tr lt ac tms nh cu].
    unfold settled in Hs. simpl in Hs.
    apply andb_prop in Hs. destruct Hs as [Hnh Hs].
    unfold pendingTimeouts in Hpend. simpl in Hpend.
    destruct tms as [|[h rep d cb] [|t2 tms]].
    - rewrite stop_empty. reflexivity.
    - destruct rep; [|discriminate Hpend].
      destruct ph; try discriminate Hs; simpl in Hs;
        settle_facts; rewrite stop_single by assumption; reflexivity.
    - destruct ph; discriminate Hs. }
  repeat apply conj; [exact Hi | exact Ht |].
  induction fs as [|[h now] fs IH]; [reflexivity|].
  simpl map. rewrite run_cons.
  rewrite step_fire_unscheduled; [exact IH|].
  unfold findTimer. rewrite Ht. reflexivity.
Qed.

(** C1. [stopSession] cancels the two intervals it knows of and not the
    one-shot armed by [finishRound]. The first round of a default session
    is driven to countdown tick 151, the tick that runs [finishRound]
    (after tick 150 the countdown interval is still armed); the stop
    control, pressed in the pause that follows, leaves the session idle
    with the one-shot still pending, and when it is delivered the session
    is breathing again, in round 2, with a new interval armed and an
    inhale cue played. *)
Theorem C1_stop_during_pause_resumes :
  phase last_countdown_tick_pending = RECOVERY /\
  activeIntervals last_countdown_tick_pending = 1%nat /\
  pendingTimeouts last_countdown_tick_pending = 0%nat /\
  pause_after_first_round
  = step DEFAULT_SETTINGS (Fire 3 122100) last_countdown_tick_pending /\
  phase pause_after_first_round = RECOVERY /\
  activeIntervals pause_after_first_round = 0%nat /\
  pendingTimeouts pause_after_first_round = 1%nat /\
  rendered (phase pause_after_first_round) StopButton = true /\
  phase stopped_in_pause = IDLE /\
  activeIntervals stopped_in_pause = 0%nat /\
  pendingTimeouts stopped_in_pause = 1%nat /\
  let later := step DEFAULT_SETTINGS (Fire 4 123100) stopped_in_pause in
  phase later = BREATHING /\ round later = 2 /\ breathCount later = 1 /\
  activeIntervals later = 1%nat /\
  length (cues later) = S (length (cues stopped_in_pause)).
Proof. vm_compute. repeat split. Qed.

(** ** The transition table of settled states *)

Section Transitions.

Variable settings : BreathingSettings.

Lemma start_literal ph r c e isIn stats tr lt ac nh cu :
  startSessionWrapper settings Resolves
    (mkState ph r c e isIn stats tr lt ac [] nh cu)
  = mkState BREATHING 1 1 e true [] (Some nh) lt nh
      [mkTimer nh true (half settings) BreathingStep] (nh + 1)
      (cu ++ [PlayInhale (half settings)]).
Proof.
  unfold startSessionWrapper, startBreathingCycleSafe, clearActiveCycleRef.
  simpl. destruct (truthy ac); reflexivity.
Qed.

Lemma next_round_literal ph r c e isIn stats tr lt ac nh cu :
  nextRound settings (mkState ph r c e isIn stats tr lt ac [] nh cu)
  = mkState BREATHING (r + 1) 1 e true stats (Some nh) lt nh
      [mkTimer nh true (half settings) BreathingStep] (nh + 1)
      (cu ++ [PlayInhale (half settings)]).
Proof.
  unfold nextRound, resumeBreathing, startBreathingCycleSafe.
  unfold clearActiveCycleRef. simpl. destruct (truthy ac); reflexivity.
Qed.

Lemma breathing_tick_literal r c e isIn stats lt h d nh cu now :
  (h =? 0) = false ->
  runBreathingStep settings now
    (mkState BREATHING r c e isIn stats (Some h) lt h
             [mkTimer h true d BreathingStep] nh cu)
  = if isIn then
      mkState BREATHING r c e false stats (Some h) lt h
              [mkTimer h true d BreathingStep] nh
              (cu ++ [PlayExhale (half settings)])
    else if c + 1 >? breathsPerRound settings then
      mkState RETENTION r c 0 true stats (Some nh) now h
              [mkTimer nh true 100%Q RetentionTick] (nh + 1)
              (cu ++ [PlayBell])
    else
      mkState BREATHING r (c + 1) e true stats (Some h) lt h
              [mkTimer h true d BreathingStep] nh
              (cu ++ [PlayInhale (half settings)]).
Proof.
  intro Hh. unfold runBreathingStep. simpl. destruct isIn; [reflexivity|].
  simpl. destruct (c + 1 >? breathsPerRound settings); [|reflexivity].
  unfold clearActiveCycleRef, truthy. simpl. rewrite Hh. simpl.
  unfold clearInterval. simpl. rewrite Z.eqb_refl. simpl.
  unfold startRetention, clearTimerRef, truthy. simpl. rewrite Hh.
  reflexivity.
Qed.

Lemma end_retention_literal r c e isIn stats lt ac h d nh cu :
  (h =? 0) = false ->
  endRetention settings
    (mkState RETENTION r c e isIn stats (Some h) lt ac
             [mkTimer h true d RetentionTick] nh cu)
  = mkState RECOVERY r c 15 isIn (stats ++ [mkStats r e]) (Some nh) lt ac
      [mkTimer nh true 100%Q RecoveryTick] (nh + 1)
      (cu ++ [PlayInhale (half settings)]).
Proof.
  intro Hh. unfold endRetention, clearTimerRef, truthy. simpl. rewrite Hh.
  simpl. unfold clearInterval. simpl. rewrite Z.eqb_refl. reflexivity.
Qed.

Lemma recovery_tick_literal r c e isIn stats lt ac h d nh cu :
  (h =? 0) = false ->
  recoveryTick settings
    (mkState RECOVERY r c e isIn stats (Some h) lt ac
             [mkTimer h true d RecoveryTick] nh cu)
  = if (e <=? 0.1)%float then
      if r >=? totalRounds settings then
        mkState COMPLETED r c 0 isIn stats (Some h) lt ac [] nh
                (cu ++ [PlayBell])
      else
        mkState RECOVERY r c 0 isIn stats (Some h) lt ac
                [mkTimer nh false 1000%Q NextRound] (nh + 1) cu
    else
      mkState RECOVERY r c (e - 0.1) isIn stats (Some h) lt ac
              [mkTimer h true d RecoveryTick] nh cu.
Proof.
  intro Hh. unfold recoveryTick. simpl.
  destruct (e <=? 0.1)%float; [|reflexivity].
  unfold finishRound, clearTimerRef, truthy. simpl. rewrite Hh. simpl.
  unfold clearInterval. simpl. rewrite Z.eqb_refl. simpl.
  destruct (r >=? totalRounds settings); reflexivity.
Qed.

(** Every event in a settled state, a stop during a pause apart, either
    changes nothing or makes one move of the table. *)
Lemma settled_step_transition ev st :
  settled st = true ->
  stopsDuringPause ev st = false ->
  step settings ev st = st \/ transition settings st (step settings ev st).
Proof.
  intros Hs Hev.
  destruct st as [ph r c e isIn stats tr lt ac tms nh cu].
  unfold settled in Hs. simpl in Hs.
  apply andb_prop in Hs. destruct Hs as [Hnh Hs].
  destruct ev as [ctl | | h' now];
    [ | left; apply step_start_rejected | ].
  - (* a click *)
    destruct (rendered ph ctl) eqn:Hr;
      [|left; apply step_click_hidden; exact Hr].
    right. unfold step. simpl phase. rewrite Hr.
    destruct ph; destruct tms as [|[h rep d cb] [|t2 tms]];
      try discriminate Hs; simpl in Hs;
      destruct ctl; try discriminate Hr; unfold onClick.
    + rewrite start_literal. apply T_start; reflexivity.
    + settle_facts. simpl in *. subst.
      rewrite stop_single by assumption.
      apply T_stop; try reflexivity. left. reflexivity.
    + settle_facts. simpl in *. subst.
      rewrite end_retention_literal by assumption.
      apply T_hold_ends; reflexivity.
    + destruct rep; [|discriminate Hev].
      settle_facts. simpl in *. subst. rewrite stop_single by assumption.
      apply T_stop; try reflexivity. right. left. reflexivity.
    + rewrite stop_empty.
      apply T_stop; try reflexivity. right. right. reflexivity.
  - (* a timer delivery *)
    destruct tms as [|[h rep d cb] [|t2 tms]].
    + left. apply step_fire_unscheduled. reflexivity.
    + rewrite (step_fire_single settings h' now _ (mkTimer h rep d cb))
        by reflexivity.
      simpl handle. simpl callback. simpl repeating.
      destruct (Z.eqb_spec h h') as [<- | Hne]; [|left; reflexivity].
      right. destruct ph; try discriminate Hs; simpl in Hs.
      * settle_facts. simpl in *. subst. unfold runCallback.
        rewrite breathing_tick_literal by assumption.
        destruct isIn; [apply T_breath; reflexivity|].
        destruct (c + 1 >? breathsPerRound settings) eqn:Hgt.
        -- apply T_hold_begins; try reflexivity.
           apply Z.gtb_lt in Hgt. simpl. lia.
        -- apply T_breath; reflexivity.
      * settle_facts. simpl in *. subst. apply T_hold; reflexivity.
      * destruct rep.
        -- settle_facts. simpl in *. subst. unfold runCallback.
           rewrite recovery_tick_literal by assumption.
           destruct (e <=? 0.1)%float eqn:He.
           ++ destruct (r >=? totalRounds settings) eqn:Hr.
              ** apply T_session_done; try reflexivity; try exact He.
                 rewrite Z.geb_leb in Hr. apply Z.leb_le in Hr. exact Hr.
              ** apply T_round_done; try reflexivity; try exact He.
                 rewrite Z.geb_leb in Hr. apply Z.leb_gt in Hr. exact Hr.
           ++ apply T_countdown; try reflexivity. exact He.
        -- settle_facts. unfold clearInterval, setTimers. simpl.
           rewrite Z.eqb_refl. simpl. rewrite next_round_literal.
           apply T_next_round; reflexivity.
    + destruct ph; discriminate Hs.
Qed.

End Transitions.

(** X3 (transition table). In a settled state every event, a stop during
    a pause apart, either leaves the state as it is or makes exactly one
    move of the table: start, a breathing tick, the tick that begins the
    hold, a hold tick, the end of the hold, a countdown tick, the end of a
    round (pause or completion), the next round, or stop. *)
Theorem step_follows_table (settings : BreathingSettings) (ev : Event)
    (st : State) :
  settled st = true ->
  stopsDuringPause ev st = false ->
  step settings ev st = st \/ transition settings st (step settings ev st).
Proof. apply settled_step_transition. Qed.

Lemma step_follows_table_witness :
  step DEFAULT_SETTINGS (Click EndRetentionButton) holding_in_first_round
    = holding_in_first_round \/
  transition DEFAULT_SETTINGS holding_in_first_round
    (step DEFAULT_SETTINGS (Click EndRetentionButton) holding_in_first_round).
Proof.
  apply (step_follows_table DEFAULT_SETTINGS);
    vm_compute; reflexivity.
Defined.

Lemma phase_stopSession st : phase (stopSession st) = IDLE.
Proof. unfold stopSession. frame_clears. reflexivity. Qed.

Lemma transition_mayFollow settings st st' :
  transition settings st st' -> mayFollow (phase st) (phase st') = true.
Proof.
  intro Ht. destruct Ht;
    repeat match goal with
           | H : _ \/ _ |- _ => destruct H
           | H : phase _ = _ |- _ => rewrite H; clear H
           end; reflexivity.
Qed.

(** X4 (phase order). From a settled state no event makes the phase
    skip: Idle leads to Breathing, Breathing to Retention or Idle,
    Retention to Recovery, Recovery to Breathing, Completed or Idle, and
    Completed to Idle. *)
Theorem phase_order (settings : BreathingSettings) (ev : Event) (st : State) :
  settled st = true ->
  mayFollow (phase st) (phase (step settings ev st)) = true.
Proof.
  intro Hs.
  destruct (stopsDuringPause ev st) eqn:Hev.
  - destruct ev as [[| | |]| |]; try discriminate Hev.
    unfold step.
    destruct (rendered (phase st) StopButton) eqn:Hr.
    + unfold onClick. rewrite phase_stopSession.
      destruct (phase st) eqn:Hp; try reflexivity;
        try (vm_compute in Hr; discriminate Hr).
      unfold settled in Hs. rewrite Hp, andb_false_r in Hs. discriminate Hs.
    + destruct (phase st) eqn:Hp; try reflexivity.
      unfold settled in Hs. rewrite Hp, andb_false_r in Hs. discriminate Hs.
  - destruct (settled_step_transition settings ev st Hs Hev) as [-> | Ht].
    + destruct (phase st) eqn:Hp; try reflexivity.
      unfold settled in Hs. rewrite Hp, andb_false_r in Hs. discriminate Hs.
    + apply (transition_mayFollow settings). exact Ht.
Qed.

Lemma phase_order_witness :
  mayFollow (phase pause_after_first_round)
    (phase (step DEFAULT_SETTINGS (Fire 4 123100) pause_after_first_round))
  = true.
Proof.
  apply (phase_order DEFAULT_SETTINGS). vm_compute. reflexivity.
Defined.

Lemma roundInRange_step settings ev st :
  1 <= totalRounds settings ->
  settled st = true -> roundInRange settings st ->
  stopsDuringPause ev st = false ->
  roundInRange settings (step settings ev st).
Proof.
  intros HR Hs Hin Hev.
  destruct (settled_step_transition settings ev st Hs Hev) as [-> | Ht];
    [exact Hin|].
  unfold roundInRange in *.
  destruct Ht;
    repeat match goal with
           | H : phase st = _ |- _ => rewrite H in Hin
           | H : phase (step _ _ _) = _ |- _ => rewrite H
           | H : round (step _ _ _) = _ |- _ => rewrite H
           | H : pendingTimeouts (step _ _ _) = _ |- _ => rewrite H
           end; try exact I; lia.
Qed.

Lemma onCountdown_step settings ev st :
  settled st = true -> onCountdown st ->
  stopsDuringPause ev st = false ->
  onCountdown (step settings ev st).
Proof.
  intros Hs Hin Hev.
  destruct (settled_step_transition settings ev st Hs Hev) as [-> | Ht];
    [exact Hin|].
  unfold onCountdown in *.
  destruct Ht; intro Hp'; try congruence;
    match goal with
    | H : elapsedTime (step _ _ _) = _ |- _ => rewrite H
    end.
  - exists 0%nat. split; [unfold countdownTicks; lia | reflexivity].
  - destruct (Hin H) as (k & Hk & Hval).
    exists (S k). unfold countdownValue in *. rewrite recoveryAfter_S.
    destruct (recoveryAfter k 15) as [e1|] eqn:Hrec.
    + destruct (recoveryAfter_15_value k e1 Hrec) as (Hlt & _).
      rewrite <- Hval, H1. split; [lia | reflexivity].
    + rewrite Hval in H1. discriminate H1.
  - exists countdownTicks. split; [lia|].
    unfold countdownValue. rewrite (proj1 recoveryAfter_15). reflexivity.
Qed.

(** Every value of the countdown is displayed within range. *)
Lemma countdown_values_displayed :
  forallb (fun k => displayInRange (countdownValue k))
          (seq 0 (S countdownTicks)) = true.
Proof. vm_compute. reflexivity. Qed.

(** X6 (round counter). With at least one round configured, in every
    state reached without a stop during a pause the round counter lies
    between 1 and [totalRounds] while the phase is Breathing, Retention or
    Recovery, and it is below [totalRounds] whenever the one-shot for the
    next round is pending. *)
Theorem round_in_range (settings : BreathingSettings) (st : State) :
  1 <= totalRounds settings ->
  undisturbed settings st ->
  (phase st = BREATHING \/ phase st = RETENTION \/ phase st = RECOVERY ->
     1 <= round st <= totalRounds settings) /\
  (phase st = RECOVERY -> pendingTimeouts st = 1%nat ->
     round st < totalRounds settings).
Proof.
  intros HR Hu.
  assert (Hin : roundInRange settings st).
  { induction Hu as [|st ev Hu IH Hev]; [exact I|].
    apply roundInRange_step; try assumption.
    apply (undisturbed_settled settings). exact Hu. }
  unfold roundInRange in Hin. split.
  - intros [H | [H | H]]; rewrite H in Hin; tauto.
  - intros H Hp. rewrite H in Hin. tauto.
Qed.

Lemma round_in_range_witness :
  (phase pause_after_first_round = BREATHING \/
   phase pause_after_first_round = RETENTION \/
   phase pause_after_first_round = RECOVERY ->
     1 <= round pause_after_first_round <= totalRounds DEFAULT_SETTINGS) /\
  (phase pause_after_first_round = RECOVERY ->
   pendingTimeouts pause_after_first_round = 1%nat ->
     round pause_after_first_round < totalRounds DEFAULT_SETTINGS).
Proof.
  assert (HR : 1 <= totalRounds DEFAULT_SETTINGS) by (simpl; lia).
  apply (round_in_range DEFAULT_SETTINGS pause_after_first_round HR).
  apply undisturbed_run; [vm_compute; reflexivity | apply undisturbed_init].
Defined.

(** X7 (countdown display). In every state reached without a stop
    during a pause, while the phase is Recovery the countdown is one of
    the 152 doubles the subtraction of [0.1] from 15 runs through, the 0
    of the finished round included, and lies between 0 and 15 seconds; so
    the progress handed to the circle lies between 0 and 1, the dash
    offset of its ring between 0 and 879, and the seconds shown
    ([Math.ceil]) between 0 and 15. *)
Theorem countdown_display_in_range (settings : BreathingSettings)
    (st : State) :
  undisturbed settings st ->
  (phase st = RECOVERY ->
     (exists k, (k <= countdownTicks)%nat /\
                elapsedTime st = countdownValue k) /\
     (0 <=? elapsedTime st)%float = true /\
     (elapsedTime st <=? 15)%float = true) /\
  ((0 <=? progress st)%float = true /\ (progress st <=? 1)%float = true) /\
  ((0 <=? strokeDashoffset (progress st))%float = true /\
   (strokeDashoffset (progress st) <=? 879)%float = true) /\
  (phase st = RECOVERY ->
     exists n, secondsShown st = Some n /\ 0 <= n <= 15).
Proof.
  intro Hu.
  assert (Hin : onCountdown st).
  { induction Hu as [|st ev Hu IH Hev]; [discriminate|].
    apply onCountdown_step; try assumption.
    apply (undisturbed_settled settings). exact Hu. }
  unfold onCountdown in Hin.
  assert (Hshown : phase st = RECOVERY ->
            displayInRange (elapsedTime st) = true).
  { intro Hp. destruct (Hin Hp) as (k & Hk & ->).
    pose proof countdown_values_displayed as Hall.
    rewrite forallb_forall in Hall. apply Hall. apply in_seq. lia. }
  unfold progress, secondsShown.
  destruct (phase st) eqn:Hp;
    try (repeat apply conj; try discriminate; reflexivity).
  specialize (Hshown eq_refl). specialize (Hin eq_refl).
  unfold displayInRange in Hshown.
  apply andb_prop in Hshown. destruct Hshown as [Hfl Hceil].
  repeat (apply andb_prop in Hfl; destruct Hfl as [Hfl ?]).
  destruct (Math_ceil (elapsedTime st)) as [n|]; [|discriminate Hceil].
  apply andb_prop in Hceil. destruct Hceil as [Hn0 Hn15].
  apply Z.leb_le in Hn0. apply Z.leb_le in Hn15.
  repeat apply conj; try assumption.
  - intros _. repeat apply conj; assumption.
  - intros _. exists n. split; [reflexivity | lia].
Qed.

Lemma countdown_display_in_range_witness :
  (phase recovering_in_first_round = RECOVERY ->
     (exists k, (k <= countdownTicks)%nat /\
                elapsedTime recovering_in_first_round = countdownValue k) /\
     (0 <=? elapsedTime recovering_in_first_round)%float = true /\
     (elapsedTime recovering_in_first_round <=? 15)%float = true) /\
  ((0 <=? progress recovering_in_first_round)%float = true /\
   (progress recovering_in_first_round <=? 1)%float = true) /\
  ((0 <=? strokeDashoffset (progress recovering_in_first_round))%float = true
   /\
   (strokeDashoffset (progress recovering_in_first_round) <=? 879)%float
   = true) /\
  (phase recovering_in_first_round = RECOVERY ->
     exists n, secondsShown recovering_in_first_round = Some n /\
               0 <= n <= 15).
Proof.
  apply (countdown_display_in_range DEFAULT_SETTINGS).
  apply undisturbed_run; [vm_compute; reflexivity | apply undisturbed_init].
Defined.

(** X8 (wake lock). In every state reached without a stop during a
    pause, the screen is asked to stay awake exactly when a timer is
    scheduled. *)
Theorem keepAwake_iff_scheduled (settings : BreathingSettings) (st : State) :
  undisturbed settings st ->
  keepAwake (phase st) = true <-> timers st <> [].
Proof.
  intro Hu. apply (undisturbed_settled settings) in Hu.
  unfold settled in Hu. apply andb_prop in Hu. destruct Hu as [_ Hs].
  destruct (phase st); destruct (timers st) as [|t [|t2 l]];
    try discriminate Hs; simpl; split; intro H;
    try reflexivity; try discriminate; try (contradiction H; reflexivity).
Qed.

Lemma keepAwake_iff_scheduled_witness :
  keepAwake (phase pause_after_first_round) = true <->
  timers pause_after_first_round <> [].
Proof.
  apply (keepAwake_iff_scheduled DEFAULT_SETTINGS).
  apply undisturbed_run; [vm_compute; reflexivity | apply undisturbed_init].
Defined.

Lemma stopSession_quiet_witness :
  let st := run DEFAULT_SETTINGS
              [Click StartButton; Fire 1 1750; Fire 1 3500] initialState in
  phase (stopSession st) = IDLE /\ timers (stopSession st) = [] /\
  run DEFAULT_SETTINGS
      (map (fun p => Fire (fst p) (snd p)) [(1, 5250); (2, 5300); (1, 7000)])
      (stopSession st)
  = stopSession st.
Proof.
  apply (stopSession_quiet DEFAULT_SETTINGS); vm_compute; reflexivity.
Defined.

Lemma filter_pair_twice {A} (f g : A -> bool) (l : list A) :
  filter f (filter g (filter f (filter g l))) = filter f (filter g l).
Proof.
  induction l as [|a l IH]; [reflexivity|].
  simpl. destruct (g a) eqn:Hg; [|exact IH].
  simpl. destruct (f a) eqn:Hf; [|exact IH].
  simpl. rewrite Hg. simpl. rewrite Hf. f_equal. exact IH.
Qed.

Lemma filter_twice {A} (f : A -> bool) (l : list A) :
  filter f (filter f l) = filter f l.
Proof.
  induction l as [|a l IH]; [reflexivity|].
  simpl. destruct (f a) eqn:Hf; [|exact IH].
  simpl. rewrite Hf. f_equal. exact IH.
Qed.

(** X2 (stop twice). Stopping a stopped session changes nothing: for
    every state, [stopSession] applied twice gives the state it gives when
    applied once. *)
Theorem stopSession_idempotent (st : State) :
  stopSession (stopSession st) = stopSession st.
Proof.
  destruct st as [ph r c e isIn stats tr lt ac tms nh cu].
  unfold stopSession, clearTimerRef, clearActiveCycleRef, clearInterval.
  destruct tr as [h|]; simpl.
  - destruct (truthy h) eqn:Hh; simpl;
      destruct (truthy ac) eqn:Ha; simpl;
      rewrite ?Hh; simpl; rewrite ?Ha; simpl;
      rewrite ?filter_pair_twice, ?filter_twice; reflexivity.
  - destruct (truthy ac) eqn:Ha; simpl; rewrite ?Ha; simpl;
      rewrite ?filter_twice; reflexivity.
Qed.

Lemma sessionStats_runBreathingStep settings now st :
  sessionStats (runBreathingStep settings now st) = sessionStats st.
Proof.
  unfold runBreathingStep. destruct (negb (isInhale st)); [|reflexivity].
  destruct (breathCount st + 1 >? breathsPerRound settings); [|reflexivity].
  unfold startRetention. frame_clears. reflexivity.
Qed.

Lemma sessionStats_breathingCycleTick settings now st :
  sessionStats (breathingCycleTick settings now st) = sessionStats st.
Proof.
  unfold breathingCycleTick. destruct (negb (isInhale st)); [|reflexivity].
  destruct (breathCount st + 1 >? breathsPerRound settings); [|reflexivity].
  unfold startRetention. frame_clears. reflexivity.
Qed.

Lemma sessionStats_recoveryTick settings st :
  sessionStats (recoveryTick settings st) = sessionStats st.
Proof.
  unfold recoveryTick. destruct (elapsedTime st <=? 0.1)%float;
    [|reflexivity].
  unfold finishRound. frame_clears. simpl.
  destruct (round st >=? totalRounds settings); reflexivity.
Qed.

Lemma sessionStats_nextRound settings st :
  sessionStats (nextRound settings st) = sessionStats st.
Proof.
  unfold nextRound, resumeBreathing, startBreathingCycleSafe.
  frame_clears. reflexivity.
Qed.

(** X5 (stats log). For every state and every event, the stats log is
    emptied by the start command in Idle, gains exactly the entry
    [{round, retentionTime: elapsedTime}] by the end-retention command in
    Retention, and is left as it is by everything else. *)
Theorem stats_log_append_only (settings : BreathingSettings) (ev : Event)
    (st : State) :
  (ev = Click StartButton /\ phase st = IDLE /\
   sessionStats (step settings ev st) = []) \/
  (ev = Click EndRetentionButton /\ phase st = RETENTION /\
   sessionStats (step settings ev st)
   = sessionStats st ++ [mkStats (round st) (elapsedTime st)]) \/
  sessionStats (step settings ev st) = sessionStats st.
Proof.
  destruct ev as [ctl | | h now];
    [ | right; right; rewrite step_start_rejected; reflexivity | ];
    unfold step.
  - destruct (rendered (phase st) ctl) eqn:Hr; [|right; right; reflexivity].
    destruct ctl; unfold onClick.
    + left. repeat split.
      * destruct (phase st); try reflexivity; vm_compute in Hr; discriminate.
      * unfold startSessionWrapper, startBreathingCycleSafe. frame_clears.
        reflexivity.
    + right. left. repeat split.
      * destruct (phase st); try reflexivity; vm_compute in Hr; discriminate.
      * unfold endRetention. frame_clears. reflexivity.
    + right. right. unfold stopSession. frame_clears. reflexivity.
    + right. right. unfold stopSession. frame_clears. reflexivity.
  - right. right. destruct (findTimer h st) as [t|]; [|reflexivity].
    assert (Hpre : sessionStats (if repeating t then st else clearInterval h st)
                   = sessionStats st).
    { destruct (repeating t); reflexivity. }
    rewrite <- Hpre.
    generalize (if repeating t then st else clearInterval h st). intro s.
    destruct (callback t); unfold runCallback.
    + apply sessionStats_breathingCycleTick.
    + apply sessionStats_runBreathingStep.
    + reflexivity.
    + apply sessionStats_recoveryTick.
    + apply sessionStats_nextRound.
Qed.

(** ** The log of a driven session *)

Section SessionLog.

Variable settings : BreathingSettings.

Lemma hold_run_exact isIn r c stats ac h nh cu ts : forall e lt,
  fireAll settings ts (retentionShape isIn r c e stats lt ac h nh cu)
  = retentionShape isIn r c (accumulated lt ts e) stats (last ts lt) ac h nh
      cu.
Proof.
  induction ts as [|t ts IH]; intros e lt; [reflexivity|].
  rewrite fireAll_cons, hold_tick, IH, last_cons_default. reflexivity.
Qed.

Lemma round_cues_assoc (base : list Cue) (n : nat) :
  ((base ++ [PlayInhale (half settings)])
     ++ concat (repeat [PlayExhale (half settings);
                        PlayInhale (half settings)] n)
     ++ [PlayExhale (half settings); PlayBell])
    ++ [PlayInhale (half settings)]
  = base ++ breathCues settings (S n)
      ++ [PlayBell; PlayInhale (half settings)].
Proof.
  rewrite <- breathCues_shift. rewrite <- !app_assoc. reflexivity.
Qed.

(** One round, with what it logs and what it plays. *)
Lemma round_exact r e stats lt h nh base sc :
  h <> 0 -> 0 < nh -> 1 <= breathsPerRound settings ->
  scriptOk settings sc = true ->
  driveRound settings sc
    (breathingShape settings true r 1 e stats lt h nh
       (base ++ [PlayInhale (half settings)]))
  = finishedShape settings true r (breathsPerRound settings)
      (stats ++ [mkStats r (holdSeconds sc)])
      (last (holdTicks sc) (last (breathTicks sc) 0)) h (nh + 1) (nh + 2)
      (base ++ roundCues settings).
Proof.
  intros Hh Hnh HN Hok. unfold scriptOk in Hok.
  apply andb_prop in Hok. destruct Hok as [Hb Hr].
  apply Nat.eqb_eq in Hb. apply Nat.eqb_eq in Hr.
  destruct (breathing_run settings r e stats lt h nh
              (Nat.pred (Z.to_nat (breathsPerRound settings))) 1
              (base ++ [PlayInhale (half settings)]) (breathTicks sc) Hh)
    as [Hrun Hpre]; [lia | lia |].
  unfold driveRound. rewrite (fireAll_as_run settings h (breathTicks sc)).
  2:{ intros k Hk. apply (Hpre k Hk). }
  rewrite Hrun, hold_run_exact.
  unfold retentionShape. rewrite end_retention_shape by lia.
  rewrite recovery_fireAll by (assumption || lia).
  rewrite round_cues_assoc. unfold roundCues, holdSeconds.
  replace (S (Nat.pred (Z.to_nat (breathsPerRound settings))))
    with (Z.to_nat (breathsPerRound settings)) by lia.
  replace (nh + 1 + 1) with (nh + 2) by lia. reflexivity.
Qed.

(** The rounds from round [r] to the last one, with their log and cues. *)
Lemma rounds_exact (scs : list RoundScript) :
  forall r e stats lt h nh base,
  1 <= breathsPerRound settings ->
  h <> 0 -> 0 < nh -> scs <> [] -> r <= totalRounds settings ->
  Z.of_nat (length scs) = totalRounds settings - r + 1 ->
  forallb (scriptOk settings) scs = true ->
  exists stats' lt' ac tr nh',
    driveRounds settings scs
      (breathingShape settings true r 1 e stats lt h nh
         (base ++ [PlayInhale (half settings)]))
    = completedShape true (totalRounds settings) (breathsPerRound settings)
        (stats ++ stats') lt' ac tr nh'
        (base ++ concat (repeat (roundCues settings) (length scs))
              ++ [PlayBell])
    /\ map stat_round stats' = roundsFrom r (length scs)
    /\ Forall2 (fun s sc => retentionTime s = holdSeconds sc) stats' scs.
Proof.
  induction scs as [|sc rest IH];
    intros r e stats lt h nh base HN Hh Hnh Hne Hr Hlen Hok;
    [contradiction Hne; reflexivity|].
  simpl in Hok. apply andb_prop in Hok. destruct Hok as [Hsc Hrest].
  pose proof (round_exact r e stats lt h nh base sc Hh Hnh HN Hsc)
    as Hround.
  destruct rest as [|sc2 rest].
  - rewrite driveRounds_last, Hround. unfold finishedShape.
    simpl in Hlen. assert (r = totalRounds settings) by lia. subst r.
    rewrite (proj2 (Z.geb_le _ _)) by lia.
    exists [mkStats (totalRounds settings) (holdSeconds sc)],
           (last (holdTicks sc) (last (breathTicks sc) 0)), h,
           (Some (nh + 1)), (nh + 2).
    repeat apply conj.
    + simpl. rewrite app_nil_r, <- app_assoc. reflexivity.
    + reflexivity.
    + constructor; [reflexivity | constructor].
  - rewrite driveRounds_more, Hround. unfold finishedShape.
    assert (Hlt : r < totalRounds settings).
    { simpl length in Hlen. lia. }
    assert (Hge : (r >=? totalRounds settings) = false).
    { rewrite Z.geb_leb. apply Z.leb_gt. exact Hlt. }
    rewrite Hge, pause_to_next_round.
    destruct (IH (r + 1) 0%float (stats ++ [mkStats r (holdSeconds sc)])
                (last (holdTicks sc) (last (breathTicks sc) 0))
                (nh + 2 + 1) (nh + 2 + 1 + 1)
                (base ++ roundCues settings))
      as (stats' & lt2 & ac & tr & nh' & Hrun & Hrounds & Hholds);
      try assumption; try lia; try discriminate.
    { simpl length in Hlen |- *. lia. }
    exists (mkStats r (holdSeconds sc) :: stats'), lt2, ac, tr, nh'.
    repeat apply conj.
    + rewrite Hrun.
      change (length (sc :: sc2 :: rest)) with (S (length (sc2 :: rest))).
      change (repeat (roundCues settings) (S (length (sc2 :: rest))))
        with (roundCues settings
                :: repeat (roundCues settings) (length (sc2 :: rest))).
      change (concat (roundCues settings
                :: repeat (roundCues settings) (length (sc2 :: rest))))
        with (roundCues settings
                ++ concat (repeat (roundCues settings)
                             (length (sc2 :: rest)))).
      rewrite <- !app_assoc. reflexivity.
    + change (length (sc :: sc2 :: rest)) with (S (length (sc2 :: rest))).
      simpl map. simpl roundsFrom. rewrite Hrounds. reflexivity.
    + constructor; [reflexivity | exact Hholds].
Qed.

End SessionLog.

Lemma countCues_concat_repeat p (l : list Cue) (n : nat) :
  countCues p (concat (repeat l n)) = (n * countCues p l)%nat.
Proof.
  induction n as [|n IH]; [reflexivity|].
  simpl repeat. simpl concat. rewrite countCues_app, IH. simpl. lia.
Qed.

(** X9 (session log). A session driven through all its rounds, 151
    countdown ticks in each, logs the rounds 1, 2, ..., [totalRounds] in
    order, each with the seconds its hold accumulated (the deltas of the
    hold's clock readings, added as doubles in tick order), and plays,
    round after round, the breaths
    of the round, the bell and the recovery inhale, then one last bell:
    [totalRounds * (N + 1)] inhale cues, [totalRounds * N] exhale cues and
    [totalRounds + 1] bells. *)
Theorem session_log_exact (settings : BreathingSettings)
    (st0 : State) (scs : list RoundScript) :
  1 <= breathsPerRound settings ->
  1 <= totalRounds settings ->
  settled st0 = true -> phase st0 = IDLE ->
  length scs = Z.to_nat (totalRounds settings) ->
  forallb (scriptOk settings) scs = true ->
  let stF := driveSession settings scs st0 in
  let N := Z.to_nat (breathsPerRound settings) in
  let R := Z.to_nat (totalRounds settings) in
  map stat_round (sessionStats stF) = roundsFrom 1 R /\
  Forall2 (fun s sc => retentionTime s = holdSeconds sc)
          (sessionStats stF) scs /\
  cuesSince st0 stF = concat (repeat (roundCues settings) R) ++ [PlayBell] /\
  countCues isInhaleCue (cuesSince st0 stF) = (R * (N + 1))%nat /\
  countCues isExhaleCue (cuesSince st0 stF) = (R * N)%nat /\
  countCues isBellCue (cuesSince st0 stF) = (R + 1)%nat.
Proof.
  intros HN HR Hs Hp Hlen Hok stF N R.
  destruct (settled_timers st0 Hs) as (_ & _ & _ & _ & Hidle).
  assert (Ht : timers st0 = []) by (apply Hidle; left; exact Hp).
  assert (Hnh : 0 < nextHandle st0).
  { unfold settled in Hs. apply andb_prop in Hs. destruct Hs as [Hs _].
    apply Z.ltb_lt. exact Hs. }
  destruct (rounds_exact settings scs 1 (elapsedTime st0) []
              (lastTimeRef st0) (nextHandle st0) (nextHandle st0 + 1)
              (cues st0))
    as (stats' & lt' & ac & tr & nh' & Hrun & Hrounds & Hholds);
    try assumption; try lia.
  { intro E. rewrite E in Hlen. simpl in Hlen. lia. }
  assert (HstF : stF = completedShape true (totalRounds settings)
                   (breathsPerRound settings) stats' lt' ac tr nh'
                   (cues st0 ++ concat (repeat (roundCues settings) R)
                      ++ [PlayBell])).
  { subst stF. unfold driveSession. rewrite start_shape by assumption.
    rewrite Hrun. subst R. rewrite Hlen. reflexivity. }
  assert (Hsince : cuesSince st0 stF
                   = concat (repeat (roundCues settings) R) ++ [PlayBell]).
  { unfold cuesSince. rewrite HstF. simpl cues.
    rewrite skipn_app, Nat.sub_diag, skipn_all. reflexivity. }
  destruct (countCues_breathCues settings N) as (Hi & He & Hb).
  assert (Hround : countCues isInhaleCue (roundCues settings) = (N + 1)%nat /\
                   countCues isExhaleCue (roundCues settings) = N /\
                   countCues isBellCue (roundCues settings) = 1%nat).
  { unfold roundCues. fold N. rewrite !countCues_app, Hi, He, Hb.
    repeat split; try reflexivity. apply Nat.add_0_r. }
  destruct Hround as (Hri & Hre & Hrb).
  repeat apply conj.
  - rewrite HstF. simpl sessionStats. rewrite Hrounds, Hlen. reflexivity.
  - rewrite HstF. exact Hholds.
  - exact Hsince.
  - rewrite Hsince, countCues_app, countCues_concat_repeat, Hri.
    apply Nat.add_0_r.
  - rewrite Hsince, countCues_app, countCues_concat_repeat, Hre.
    apply Nat.add_0_r.
  - rewrite Hsince, countCues_app, countCues_concat_repeat, Hrb.
    change (countCues isBellCue [PlayBell]) with 1%nat. lia.
Qed.

Lemma session_log_exact_witness :
  let stF := driveSession DEFAULT_SETTINGS default_scripts initialState in
  let N := Z.to_nat (breathsPerRound DEFAULT_SETTINGS) in
  let R := Z.to_nat (totalRounds DEFAULT_SETTINGS) in
  map stat_round (sessionStats stF) = roundsFrom 1 R /\
  Forall2 (fun s sc => retentionTime s = holdSeconds sc)
          (sessionStats stF) default_scripts /\
  cuesSince initialState stF
  = concat (repeat (roundCues DEFAULT_SETTINGS) R) ++ [PlayBell] /\
  countCues isInhaleCue (cuesSince initialState stF) = (R * (N + 1))%nat /\
  countCues isExhaleCue (cuesSince initialState stF) = (R * N)%nat /\
  countCues isBellCue (cuesSince initialState stF) = (R + 1)%nat.
Proof.
  assert (HN : 1 <= breathsPerRound DEFAULT_SETTINGS) by (simpl; lia).
  assert (HR : 1 <= totalRounds DEFAULT_SETTINGS) by (simpl; lia).
  assert (Hs : settled initialState = true) by reflexivity.
  assert (Hp : phase initialState = IDLE) by reflexivity.
  assert (Hl : length default_scripts
               = Z.to_nat (totalRounds DEFAULT_SETTINGS)) by reflexivity.
  assert (Hok : forallb (scriptOk DEFAULT_SETTINGS) default_scripts = true)
    by (vm_compute; reflexivity).
  exact (session_log_exact DEFAULT_SETTINGS initialState default_scripts
           HN HR Hs Hp Hl Hok).
Defined.

(** ** The settings sheet *)

Lemma sheetValid_applyEdit s e :
  sheetValid s -> sheetOffers e = true -> sheetValid (applyEdit s e).
Proof.
  intros (HN & H5 & Ht & Hr) He. unfold sheetValid.
  destruct e as [v | sp | r]; simpl in *.
  - apply andb_prop in He. destruct He as [He Hm].
    apply andb_prop in He. destruct He as [Hlo Hhi].
    apply Z.leb_le in Hlo. apply Z.leb_le in Hhi. apply Z.eqb_eq in Hm.
    repeat split; try assumption; try lia.
    assert (E : v = (v - 20) + 4 * 5) by lia.
    rewrite E, Z.mod_add by lia. exact Hm.
  - repeat split; try assumption; lia.
  - repeat split; try assumption; lia.
Qed.

(** X12 (settings sheet). Whatever edits the settings sheet makes to
    the default settings, breaths per round stay a multiple of 5 between
    20 and 60, the tempo one of 2500, 3500, 5000 and the rounds one of 1,
    3, 5: so there is at least one breath and one round, half the tempo is
    a whole number of milliseconds, and the estimate shown on the idle
    screen is 4, 11 or 18 minutes. *)
Theorem sheet_keeps_settings_valid (edits : list SettingsEdit) :
  forallb sheetOffers edits = true ->
  let s := fold_left applyEdit edits DEFAULT_SETTINGS in
  sheetValid s /\
  1 <= breathsPerRound s /\ 1 <= totalRounds s /\
  (half s == inject_Z (tempoMs s / 2))%Q /\
  In (estimatedMinutes s) [4; 11; 18].
Proof.
  intros Hall s.
  assert (Hv : sheetValid s).
  { subst s.
    assert (H0 : sheetValid DEFAULT_SETTINGS).
    { unfold sheetValid. simpl. repeat split; try lia; tauto. }
    revert H0 Hall. generalize DEFAULT_SETTINGS.
    induction edits as [|e edits IH]; intros s0 H0 Hall; [exact H0|].
    simpl in Hall. apply andb_prop in Hall. destruct Hall as [He Hall].
    simpl. apply IH; [|exact Hall]. apply sheetValid_applyEdit; assumption. }
  split; [exact Hv|].
  destruct Hv as (HN & H5 & Ht & Hr).
  repeat apply conj; try lia.
  - simpl in Hr. lia.
  - unfold half. simpl in Ht.
    destruct Ht as [<- | [<- | [<- | []]]]; reflexivity.
  - unfold estimatedMinutes. simpl in Hr.
    destruct Hr as [<- | [<- | [<- | []]]]; vm_compute; tauto.
Qed.

Lemma sheet_keeps_settings_valid_witness :
  let s := fold_left applyEdit
             [BreathsSlider 45; RoundsButton 5; SpeedButton 2500]
             DEFAULT_SETTINGS in
  sheetValid s /\
  1 <= breathsPerRound s /\ 1 <= totalRounds s /\
  (half s == inject_Z (tempoMs s / 2))%Q /\
  In (estimatedMinutes s) [4; 11; 18].
Proof.
  apply (sheet_keeps_settings_valid
           [BreathsSlider 45; RoundsButton 5; SpeedButton 2500]).
  reflexivity.
Defined.

(** ** The first version of the breathing cycle *)

Section LegacyFacts.

Variable settings : BreathingSettings.

Lemma legacy_start_shape st0 :
  timers st0 = [] ->
  startSession settings Resolves st0
  = legacyShape settings true 1 1 (elapsedTime st0) [] (lastTimeRef st0)
      (activeCycleRef st0) (nextHandle st0) (nextHandle st0 + 1)
      (cues st0 ++ [PlayInhale (half settings)]).
Proof.
  intro Ht. destruct st0 as [ph r c e isIn stats tr lt ac tms nh cu].
  simpl in *. subst.
  unfold startSession, startBreathingCycle, clearTimerRef. simpl.
  destruct tr as [h|]; [destruct (truthy h)|]; reflexivity.
Qed.

Lemma legacy_exhale r c e stats lt ac h nh cu t1 :
  step settings (Fire h t1) (legacyShape settings true r c e stats lt ac h nh cu)
  = legacyShape settings false r c e stats lt ac h nh
      (cu ++ [PlayExhale (half settings)]).
Proof.
  unfold step, legacyShape, findTimer. simpl. rewrite Z.eqb_refl.
  reflexivity.
Qed.

Lemma legacy_inhale r c e stats lt ac h nh cu t2 :
  c + 1 <= breathsPerRound settings ->
  step settings (Fire h t2)
       (legacyShape settings false r c e stats lt ac h nh cu)
  = legacyShape settings true r (c + 1) e stats lt ac h nh
      (cu ++ [PlayInhale (half settings)]).
Proof.
  intro Hc.
  assert (Hb : (c + 1 >? breathsPerRound settings) = false).
  { rewrite Z.gtb_ltb. apply Z.ltb_ge. exact Hc. }
  unfold step, legacyShape, findTimer. simpl. rewrite Z.eqb_refl. simpl.
  unfold breathingCycleTick. simpl. rewrite Hb. reflexivity.
Qed.

Lemma legacy_hold_begins r c e stats lt ac h nh cu t2 :
  h <> 0 ->
  c + 1 > breathsPerRound settings ->
  step settings (Fire h t2)
       (legacyShape settings false r c e stats lt ac h nh cu)
  = retentionShape true r c 0 stats t2 ac nh (nh + 1) (cu ++ [PlayBell]).
Proof.
  intros Hh Hc.
  assert (Hb : (c + 1 >? breathsPerRound settings) = true).
  { apply Z.gtb_lt. lia. }
  assert (Ht : truthy h = true).
  { unfold truthy. apply Bool.negb_true_iff, Z.eqb_neq. exact Hh. }
  unfold step, legacyShape, findTimer. simpl. rewrite Z.eqb_refl. simpl.
  unfold breathingCycleTick. simpl. rewrite Hb.
  unfold startRetention, clearTimerRef, clearInterval. simpl.
  rewrite Ht. simpl. rewrite Z.eqb_refl. reflexivity.
Qed.

(** A whole breathing phase of the first version. *)
Lemma legacy_run r e stats lt ac h nh (n : nat) : forall c cu ts,
  h <> 0 ->
  breathsPerRound settings - c = Z.of_nat n ->
  length ts = (2 * S n)%nat ->
  run settings (map (Fire h) ts)
      (legacyShape settings true r c e stats lt ac h nh cu)
  = retentionShape true r (breathsPerRound settings) 0 stats (last ts 0)
      ac nh (nh + 1)
      (cu ++ concat (repeat [PlayExhale (half settings);
                             PlayInhale (half settings)] n)
          ++ [PlayExhale (half settings); PlayBell])
  /\ forall k, (k < length ts)%nat ->
       phase (run settings (map (Fire h) (firstn k ts))
                (legacyShape settings true r c e stats lt ac h nh cu))
       = BREATHING.
Proof.
  induction n as [|n IH]; intros c cu ts Hh Hc Hlen.
  - destruct ts as [|t1 [|t2 [|t3 ts]]]; try discriminate Hlen.
    assert (c = breathsPerRound settings) by lia. subst c.
    split.
    + simpl map. rewrite !run_cons, run_nil, legacy_exhale.
      rewrite legacy_hold_begins by (assumption || lia).
      rewrite <- app_assoc. reflexivity.
    + intros k Hk. simpl in Hk.
      destruct k as [|[|k]]; [reflexivity| |lia].
      simpl firstn. simpl map. rewrite run_cons, run_nil.
      rewrite legacy_exhale. reflexivity.
  - destruct ts as [|t1 [|t2 ts]]; try discriminate Hlen.
    assert (Hstep : forall l,
      run settings (Fire h t1 :: Fire h t2 :: l)
          (legacyShape settings true r c e stats lt ac h nh cu)
      = run settings l
          (legacyShape settings true r (c + 1) e stats lt ac h nh
             (cu ++ [PlayExhale (half settings);
                     PlayInhale (half settings)]))).
    { intro l. rewrite !run_cons, legacy_exhale, legacy_inhale by lia.
      rewrite <- app_assoc. reflexivity. }
    destruct (IH (c + 1)
                (cu ++ [PlayExhale (half settings);
                        PlayInhale (half settings)]) ts Hh)
      as [Hrun Hpre]; [lia | simpl in Hlen |- *; lia |].
    split.
    + simpl map. rewrite Hstep, Hrun. f_equal.
      * destruct ts as [|t3 ts]; [simpl in Hlen; lia|].
        rewrite !last_cons_default. reflexivity.
      * simpl. rewrite <- !app_assoc. reflexivity.
    + intros k Hk. destruct k as [|[|k]].
      * reflexivity.
      * simpl firstn. simpl map. rewrite run_cons, run_nil.
        rewrite legacy_exhale. reflexivity.
      * simpl firstn. simpl map. rewrite Hstep. apply Hpre.
        simpl in Hk. lia.
Qed.

End LegacyFacts.

(** X13 (first version of the cycle). [startSession], once
    [initAudio()] has resolved, with the interval
    callback of [startBreathingCycle], the version no control is bound to,
    drives a breathing phase like the bound one: from a state with nothing
    scheduled it stays in Breathing for [2N - 1] ticks, enters Retention on
    tick [2N] after [N] inhale and [N] exhale cues and a bell, and leaves
    the retention interval as the only timer. *)
Theorem legacy_breathing_phase (settings : BreathingSettings)
    (st0 : State) (ts : list Z) :
  1 <= breathsPerRound settings ->
  timers st0 = [] -> nextHandle st0 <> 0 ->
  length ts = (2 * Z.to_nat (breathsPerRound settings))%nat ->
  let N := Z.to_nat (breathsPerRound settings) in
  let h := nextHandle st0 in
  let stF := run settings (map (Fire h) ts)
               (startSession settings Resolves st0) in
  phase stF = RETENTION /\
  (forall k, (k < length ts)%nat ->
     phase (run settings (map (Fire h) (firstn k ts))
              (startSession settings Resolves st0)) = BREATHING) /\
  cuesSince st0 stF = breathCues settings N ++ [PlayBell] /\
  timers stF = [mkTimer (h + 1) true 100%Q RetentionTick] /\
  timerRef stF = Some (h + 1) /\
  round stF = 1 /\ sessionStats stF = [].
Proof.
  intros HN Ht Hh Hlen N h stF.
  destruct (legacy_run settings 1 (elapsedTime st0) [] (lastTimeRef st0)
              (activeCycleRef st0) h (h + 1) (Nat.pred N) 1
              (cues st0 ++ [PlayInhale (half settings)]) ts Hh)
    as [Hrun Hpre].
  { subst N. lia. }
  { rewrite Hlen. subst N. lia. }
  assert (HstF : stF = retentionShape true 1 (breathsPerRound settings) 0 []
                   (last ts 0) (activeCycleRef st0) (h + 1) (h + 1 + 1)
                   (cues st0 ++ breathCues settings N ++ [PlayBell])).
  { subst stF. rewrite legacy_start_shape by assumption.
    fold h. rewrite Hrun. f_equal.
    replace N with (S (Nat.pred N)) by (subst N; lia).
    rewrite <- breathCues_shift. rewrite <- !app_assoc. reflexivity. }
  repeat apply conj.
  - rewrite HstF. reflexivity.
  - intros k Hk. rewrite legacy_start_shape by assumption. apply Hpre.
    exact Hk.
  - unfold cuesSince. rewrite HstF. simpl cues.
    rewrite skipn_app, Nat.sub_diag, skipn_all. reflexivity.
  - rewrite HstF. reflexivity.
  - rewrite HstF. reflexivity.
  - rewrite HstF. reflexivity.
  - rewrite HstF. reflexivity.
Qed.

Lemma legacy_breathing_phase_witness :
  let ts := [1000; 2000; 3000; 4000; 5000; 6000; 7000; 8000] in
  let stF := run example_settings (map (Fire (nextHandle initialState)) ts)
               (startSession example_settings Resolves initialState) in
  phase stF = RETENTION /\
  cuesSince initialState stF = breathCues example_settings 4 ++ [PlayBell] /\
  timers stF = [mkTimer 2 true 100%Q RetentionTick].
Proof.
  assert (HN : 1 <= breathsPerRound example_settings) by (simpl; lia).
  assert (Hh : nextHandle initialState <> 0) by discriminate.
  destruct (legacy_breathing_phase example_settings initialState
              [1000; 2000; 3000; 4000; 5000; 6000; 7000; 8000]
              HN eq_refl Hh eq_refl)
    as (H1 & _ & H3 & H4 & _).
  repeat apply conj; assumption.
Defined.

(** ** The label and the cue *)

Lemma breathing_tick_label settings now st :
  let st' := runBreathingStep settings now st in
  phase st' = RETENTION \/
  (phase st' = phase st /\
   last (cues st') PlayBell = heardCue settings st').
Proof.
  unfold runBreathingStep, heardCue.
  destruct (isInhale st); simpl negb; cbv iota.
  - right. split; [reflexivity|]. unfold playSound. simpl. apply last_last.
  - destruct (breathCount st + 1 >? breathsPerRound settings).
    + left. unfold startRetention. frame_clears. reflexivity.
    + right. split; [reflexivity|]. unfold playSound. simpl. apply last_last.
Qed.

Lemma legacy_tick_label settings now st :
  let st' := breathingCycleTick settings now st in
  phase st' = RETENTION \/
  (phase st' = phase st /\
   last (cues st') PlayBell = heardCue settings st').
Proof.
  unfold breathingCycleTick, heardCue.
  destruct (isInhale st); simpl negb; cbv iota.
  - right. split; [reflexivity|]. unfold playSound. simpl. apply last_last.
  - destruct (breathCount st + 1 >? breathsPerRound settings).
    + left. unfold startRetention. frame_clears. reflexivity.
    + right. split; [reflexivity|]. unfold playSound. simpl. apply last_last.
Qed.

Lemma recovery_tick_label settings st :
  let st' := recoveryTick settings st in
  phase st' = COMPLETED \/
  (phase st' = phase st /\ cues st' = cues st /\ isInhale st' = isInhale st).
Proof.
  unfold recoveryTick.
  destruct (elapsedTime st <=? 0.1)%float;
    [|right; repeat split; reflexivity].
  unfold finishRound. frame_clears. simpl.
  destruct (round st >=? totalRounds settings);
    [left | right; repeat split]; reflexivity.
Qed.

Lemma labelMatchesCue_step settings ev st :
  labelMatchesCue settings st -> labelMatchesCue settings (step settings ev st).
Proof.
  intro Hin. unfold labelMatchesCue in *.
  assert (Hclick : forall ctl,
            phase (step settings (Click ctl) st) = BREATHING ->
            last (cues (step settings (Click ctl) st)) PlayBell
            = heardCue settings (step settings (Click ctl) st)).
  { intro ctl. unfold step. destruct (rendered (phase st) ctl); [|exact Hin].
    destruct ctl; unfold onClick.
    + intros _. unfold startSessionWrapper, startBreathingCycleSafe.
      frame_clears. unfold playSound, heardCue. simpl. apply last_last.
    + unfold endRetention. frame_clears. simpl. discriminate.
    + unfold stopSession. frame_clears. simpl. discriminate.
    + unfold stopSession. frame_clears. simpl. discriminate. }
  destruct ev as [ctl | | h now].
  - apply Hclick.
  - rewrite step_start_rejected. exact Hin.
  - unfold step. destruct (findTimer h st) as [t|]; [|exact Hin].
    assert (Hpre : forall s,
              s = (if repeating t then st else clearInterval h st) ->
              phase s = BREATHING ->
              last (cues s) PlayBell = heardCue settings s).
    { intros s ->. destruct (repeating t); exact Hin. }
    specialize (Hpre _ eq_refl).
    generalize dependent (if repeating t then st else clearInterval h st).
    intros s Hs. destruct (callback t); unfold runCallback.
    + destruct (legacy_tick_label settings now s) as [H | [_ H]];
        [intro Hp; congruence | intros _; exact H].
    + destruct (breathing_tick_label settings now s) as [H | [_ H]];
        [intro Hp; congruence | intros _; exact H].
    + exact Hs.
    + destruct (recovery_tick_label settings s) as [H | (Hp & Hc & Hi)].
      * intro Hp. congruence.
      * intro Hp'. unfold heardCue. rewrite Hc, Hi. apply Hs. congruence.
    + intros _. unfold nextRound, resumeBreathing, startBreathingCycleSafe.
      frame_clears. unfold playSound, heardCue. simpl. apply last_last.
Qed.

(** ** Display helpers *)

Lemma Qfloor_unique (y : Q) (k : Z) :
  (inject_Z k <= y)%Q -> (y < inject_Z (k + 1))%Q -> Qfloor y = k.
Proof.
  intros Hle Hlt.
  pose proof (Qfloor_le y) as Hf1. pose proof (Qlt_floor y) as Hf2.
  assert (H1 : (inject_Z (Qfloor y) < inject_Z (k + 1))%Q) by lra.
  assert (H2 : (inject_Z k < inject_Z (Qfloor y + 1))%Q) by lra.
  rewrite <- Zlt_Qlt in H1, H2. lia.
Qed.

Module DisplayFacts.

Import Stdlib.Strings.String Stdlib.Strings.Ascii Stdlib.Numbers.DecimalString.
Import Display.

Lemma two_digits_below_60 :
  forallb (fun n => (length (padStart 2 "0" (numberToString (Z.of_nat n)))
                     =? 2)%nat
                    && match NilZero.int_of_string
                               (padStart 2 "0" (numberToString (Z.of_nat n)))
                       with
                       | Some d => Z.of_int d =? Z.of_nat n
                       | None => false
                       end)
          (seq 0 60) = true.
Proof. vm_compute. reflexivity. Qed.

(** X11 (formatTime). For a duration that is not negative, the minutes
    and seconds [formatTime] shows are whole numbers with
    [0 <= seconds <= 59] that recompose to the whole seconds of the
    duration; the seconds field is always two characters long and reads
    back as the seconds. *)
Theorem formatTime_minutes_seconds (x : Q) :
  (0 <= x)%Q ->
  let m := minutesOf x in
  let s := secondsOf x in
  0 <= m /\ 0 <= s <= 59 /\ 60 * m + s = Qfloor x /\
  formatTime x
  = append (numberToString m) (append ":" (padStart 2 "0" (numberToString s)))
  /\ length (padStart 2 "0" (numberToString s)) = 2%nat /\
  option_map Z.of_int
    (NilZero.int_of_string (padStart 2 "0" (numberToString s))) = Some s.
Proof.
  intros Hx m s.
  assert (Hdiv : (x / 60 == x * (1 # 60))%Q) by reflexivity.
  assert (Hm1 : (inject_Z m <= x / 60)%Q) by apply Qfloor_le.
  assert (Hm2 : (x / 60 < inject_Z (m + 1))%Q) by apply Qlt_floor.
  assert (Hm0 : 0 <= m).
  { change 0 with (Qfloor 0). apply Qfloor_resp_le. rewrite Hdiv. lra. }
  assert (Htr : Qtruncate (x / 60) = m).
  { unfold Qtruncate.
    assert (H : Qle_bool 0 (x / 60) = true).
    { apply Qle_bool_iff. rewrite Hdiv. lra. }
    rewrite H. reflexivity. }
  pose proof (Qfloor_le x) as Hf1. pose proof (Qlt_floor x) as Hf2.
  rewrite inject_Z_plus in Hm2, Hf2.
  change (inject_Z 1) with 1%Q in Hm2, Hf2.
  assert (Hs : s = Qfloor x - 60 * m).
  { subst s. unfold secondsOf, jsRemainder. rewrite Htr.
    apply Qfloor_unique.
    - unfold Z.sub. rewrite inject_Z_plus, inject_Z_opp, inject_Z_mult.
      change (inject_Z 60) with 60%Q. lra.
    - replace (Qfloor x - 60 * m + 1) with (Qfloor x + 1 - 60 * m) by lia.
      unfold Z.sub.
      rewrite !inject_Z_plus, inject_Z_opp, inject_Z_mult.
      change (inject_Z 60) with 60%Q. change (inject_Z 1) with 1%Q. lra. }
  assert (Hlow : 60 * m <= Qfloor x).
  { assert (H : (inject_Z (60 * m) < inject_Z (Qfloor x + 1))%Q).
    { rewrite inject_Z_plus, inject_Z_mult.
      change (inject_Z 60) with 60%Q. change (inject_Z 1) with 1%Q.
      rewrite Hdiv in Hm1. lra. }
    rewrite <- Zlt_Qlt in H. lia. }
  assert (Hhigh : Qfloor x < 60 * (m + 1)).
  { assert (H : (inject_Z (Qfloor x) < inject_Z (60 * (m + 1)))%Q).
    { rewrite inject_Z_mult, inject_Z_plus.
      change (inject_Z 60) with 60%Q. change (inject_Z 1) with 1%Q.
      rewrite Hdiv in Hm2. lra. }
    rewrite <- Zlt_Qlt in H. exact H. }
  assert (Hrange : 0 <= s <= 59) by lia.
  assert (Hn : exists n, s = Z.of_nat n /\ In n (seq 0 60)).
  { exists (Z.to_nat s). split; [lia|]. apply in_seq. lia. }
  destruct Hn as (n & Hsn & Hin).
  pose proof two_digits_below_60 as Hall.
  rewrite forallb_forall in Hall. specialize (Hall n Hin).
  apply andb_prop in Hall. destruct Hall as [Hlen Hread].
  repeat apply conj; try lia; try reflexivity.
  - rewrite Hsn. apply Nat.eqb_eq. exact Hlen.
  - rewrite Hsn.
    destruct (NilZero.int_of_string
                (padStart 2 "0" (numberToString (Z.of_nat n)))) as [d|];
      [|discriminate Hread].
    simpl. apply Z.eqb_eq in Hread. rewrite Hread. reflexivity.
Qed.

Lemma formatTime_minutes_seconds_witness :
  let x := (1229 # 10)%Q in
  let m := minutesOf x in
  let s := secondsOf x in
  0 <= m /\ 0 <= s <= 59 /\ 60 * m + s = Qfloor x /\
  formatTime x
  = append (numberToString m) (append ":" (padStart 2 "0" (numberToString s)))
  /\ length (padStart 2 "0" (numberToString s)) = 2%nat /\
  option_map Z.of_int
    (NilZero.int_of_string (padStart 2 "0" (numberToString s))) = Some s.
Proof.
  apply (formatTime_minutes_seconds (1229 # 10)). vm_compute. discriminate.
Defined.

(** X14 (label and cue). In every reachable state in phase Breathing
    the circle reads INHALE exactly when the last cue played was the
    inhale cue, and EXHALE exactly when it was the exhale cue. *)
Theorem label_matches_last_cue (settings : BreathingSettings) (st : State) :
  reachable settings st -> phase st = BREATHING ->
  (circleText st = "INHALE"%string /\
   last (cues st) PlayBell = PlayInhale (half settings)) \/
  (circleText st = "EXHALE"%string /\
   last (cues st) PlayBell = PlayExhale (half settings)).
Proof.
  intro Hr.
  assert (Hin : labelMatchesCue settings st).
  { induction Hr as [|st ev _ IH]; [discriminate|].
    apply labelMatchesCue_step. exact IH. }
  intro Hp. specialize (Hin Hp). unfold heardCue in Hin. unfold circleText.
  rewrite Hp. destruct (isInhale st); [left | right]; split;
    try reflexivity; exact Hin.
Qed.

Lemma label_matches_last_cue_witness :
  let st := run DEFAULT_SETTINGS
              [Click StartButton; Fire 1 1750; Fire 1 3500; Fire 1 5250]
              initialState in
  (circleText st = "INHALE"%string /\
   last (cues st) PlayBell = PlayInhale (half DEFAULT_SETTINGS)) \/
  (circleText st = "EXHALE"%string /\
   last (cues st) PlayBell = PlayExhale (half DEFAULT_SETTINGS)).
Proof.
  apply (label_matches_last_cue DEFAULT_SETTINGS).
  - apply reachable_run, reachable_init.
  - reflexivity.
Defined.

End DisplayFacts.
